(** * Poisson INAR(1) likelihood model: RIMA_POISSON.py

    A shallow embedding of the classes [INAR] and [PoissonINAR] of
    [RIMA_POISSON.py], of their constructors and of the methods
    [PoissonINAR.nloglikeobs] and [PoissonINAR.fit].

    Conventions of the embedding.
    - A Python float is a [float]: a finite value (a real number), an
      infinity or not-a-number.  The floating-point arithmetic and the
      numeric functions that the source calls ([math.exp], [np.exp],
      [X.dot], [poisson.pmf], [binom.pmf]) are the fields of a [library];
      the code is written over an arbitrary [library], so that a statement
      about it holds whatever these operations return, rounded, underflowed,
      infinite or not.  [math.log] returns the real logarithm of a positive
      value.
    - [binary64] is one library: exact results, with the overflow, the
      underflow to zero and the absorption of double precision.
    - The observed series [endog] is an array of [np.int64]: a list of
      integers, each within the 64-bit range where a statement needs it;
      [min(y[t], y[t-1]) + 1] wraps around as NumPy scalars do.
    - A raised exception is the [Raise] result of the [result] monad.  The
      exception classes are those the interpreter and NumPy raise on the
      paths of the source, and [InvalidDomain], which only the specification
      names.
    - [GenericLikelihoodModel.__init__] and [GenericLikelihoodModel.fit] are
      library code as well, and parameters of the sections that call them.
    - The product that the source breaks over lines 50 and 51 is read as one
      expression, and [fit], which the source indents by one column, as a
      method of [PoissonINAR].
    - [start_params] is [None], a NumPy array, or a Python list or tuple. *)

From Stdlib Require Import String.
From Stdlib Require Import Reals Lra Lia ZArith List Bool.
Import ListNotations.

Open Scope Z_scope.

(** ** Exceptions and the error monad *)

Inductive exn : Type :=
| TypeError        (* super(type, obj): obj must be an instance or subtype of type *)
| ValueError       (* math domain error; shapes not aligned; ambiguous truth value *)
| IndexError       (* index out of bounds *)
| OverflowError    (* math range error *)
| ZeroDivisionError (* float division by zero *)
| InvalidDomain.   (* named by the specification only *)

Inductive result (A : Type) : Type :=
| Ok (a : A)
| Raise (e : exn).

Arguments Ok {A} a.
Arguments Raise {A} e.

Definition bind {A B} (r : result A) (k : A -> result B) : result B :=
  match r with
  | Ok a => k a
  | Raise e => Raise e
  end.

Notation "x <- c ;; k" := (bind c (fun x => k))
  (at level 61, c at next level, right associativity).



(** A [for] loop whose body may raise: the state is threaded through the
    items in order and the first exception ends the loop. *)
Fixpoint for_loop {S A : Type} (items : list A) (body : S -> A -> result S)
  (s : S) : result S :=
  match items with
  | [] => Ok s
  | x :: rest => s' <- body s x ;; for_loop rest body s'
  end.

(** ** Python sequences *)

Definition len {A} (l : list A) : Z := Z.of_nat (length l).

(** [l[i]]: a negative index counts from the end; out of range raises. *)
Definition getitem {A} (l : list A) (i : Z) : result A :=
  let i' := if i <? 0 then i + len l else i in
  if (0 <=? i') && (i' <? len l) then
    match nth_error l (Z.to_nat i') with
    | Some a => Ok a
    | None => Raise IndexError
    end
  else Raise IndexError.

(** [l[:-1]] *)
Definition slice_but_last {A} (l : list A) : list A := removelast l.

(** [range(n)] *)
Definition range (n : Z) : list Z := map Z.of_nat (seq 0 (Z.to_nat n)).

(** [range(start, stop, -1)] *)
Definition range_down (start stop : Z) : list Z :=
  map (fun i => start - Z.of_nat i) (seq 0 (Z.to_nat (start - stop))).

(** [int(v)] on an integer value. *)
Definition int (v : Z) : Z := v.

(** ** NumPy 64-bit integers *)

Definition int64_half : Z := 9223372036854775808.
Definition int64_modulus : Z := 18446744073709551616.

(** The value a 64-bit two's complement integer keeps of [z]. *)
Definition wrap64 (z : Z) : Z :=
  (z + int64_half) mod int64_modulus - int64_half.

(** [a + b] on [np.int64] scalars. *)
Definition int64_add (a b : Z) : Z := wrap64 (a + b).

Definition is_int64 (z : Z) : Prop := - int64_half <= z < int64_half.

(** The entries of an [np.int64] array. *)
Definition int64_series (y : list Z) : Prop := Forall is_int64 y.

(** ** Floats *)

Open Scope R_scope.

(** A Python float: a finite value, an infinity or not-a-number.  A finite
    value is a real number; what an operation returns on finite values,
    rounded or not, is the library's. *)
Inductive float : Type :=
| Fin (r : R)
| PInf
| NInf
| NaN.

(** [-x], which is exact. *)
Definition float_neg (x : float) : float :=
  match x with
  | Fin r => Fin (- r)
  | PInf => NInf
  | NInf => PInf
  | NaN => NaN
  end.

(** [math.log(x)]: a domain error unless [x] is positive or not a number. *)
Definition math_log (x : float) : result float :=
  match x with
  | Fin r => if Rlt_dec 0 r then Ok (Fin (ln r)) else Raise ValueError
  | PInf => Ok PInf
  | NInf => Raise ValueError
  | NaN => Ok NaN
  end.

(** A finite value above zero, and a value at which [math.log] raises: zero,
    a negative value or minus infinity. *)
Definition finite_positive (x : float) : Prop :=
  match x with
  | Fin r => 0 < r
  | _ => False
  end.

Definition zero_or_negative (x : float) : Prop :=
  match x with
  | Fin r => r <= 0
  | NInf => True
  | _ => False
  end.

(** The logarithm that [math.log] returns where it returns. *)
Definition log_value (x : float) : float :=
  match math_log x with
  | Ok l => l
  | Raise _ => NaN
  end.

(** ** NumPy arrays *)

(** A two-dimensional array: its rows and its second dimension. *)
Record ndarray2 : Type := mk_ndarray2 {
  rows : list (list float);
  ncols : nat
}.

Definition shape0 (X : ndarray2) : nat := length (rows X).
Definition shape1 (X : ndarray2) : nat := ncols X.

Definition np_ones (n : nat) : list float := repeat (Fin 1) n.
Definition np_append (v : list float) (x : float) : list float := v ++ [x].
Definition np_neg (v : list float) : list float := map float_neg v.

(** ** The numeric library *)

(** The floating-point arithmetic and the functions of [math], NumPy and
    [scipy.stats] that [nloglikeobs] calls: [float_add a b] is [a + b],
    [float_mul a b] is [a * b], [float_div a b] is [a / b] for a divisor
    that is not zero; [math_exp] is [math.exp], which raises when its result
    overflows; [np_exp] is [np.exp] on one entry and [np_dot r b] one entry
    of [X.dot(b)], for the row [r]; [poisson_pmf k mu] is
    [poisson.pmf(k, mu)] and [binom_pmf k n p] is [binom.pmf(k, n, p)]. *)
Record library : Type := mk_library {
  float_add : float -> float -> float;
  float_mul : float -> float -> float;
  float_div : float -> float -> float;
  math_exp : float -> result float;
  np_exp : float -> float;
  np_dot : list float -> list float -> float;
  poisson_pmf : Z -> float -> float;
  binom_pmf : Z -> Z -> float -> float
}.

(** [a / b] on Python floats: a zero divisor raises. *)
Definition truediv (lib : library) (a b : float) : result float :=
  match b with
  | Fin r => if Req_dec_T r 0 then Raise ZeroDivisionError
             else Ok (float_div lib a b)
  | _ => Ok (float_div lib a b)
  end.

(** [X.dot(beta)] for a 2-D [X] and a 1-D [beta]: the second dimension of
    [X] must be the length of [beta]. *)
Definition ndarray_dot (lib : library) (X : ndarray2) (beta : list float)
  : result (list float) :=
  if Nat.eqb (shape1 X) (length beta)
  then Ok (map (fun r => np_dot lib r beta) (rows X))
  else Raise ValueError.

(** [np.exp(v)] on an array. *)
Definition np_exp_array (lib : library) (v : list float) : list float :=
  map (np_exp lib) v.

(** ** The model instance *)

Record Model : Type := mk_Model {
  endog : list Z;
  exog : ndarray2;
  exog_names : list string
}.

(** ** [PoissonINAR.nloglikeobs] *)

(** [rho = 1.0/(1.0+math.exp(-gamma))] *)
Definition rho_of_gamma (lib : library) (gamma : float) : result float :=
  e <- math_exp lib (float_neg gamma) ;;
  truediv lib (Fin 1) (float_add lib (Fin 1) e).

Section Likelihood.

Variable lib : library.

(** The inner loop of the source for one [t]: [prob_y_t] starts at 0 and
    accumulates one product per [j] in [range(int(min(y[t], y[t-1])+1))]. *)
Definition prob_y_t (y : list Z) (mu : list float) (rho : float) (t : Z)
  : result float :=
  yt <- getitem y t ;;
  yp <- getitem y (t - 1) ;;
  for_loop (range (int (int64_add (Z.min yt yp) 1)))
    (fun prob j =>
       yt <- getitem y t ;;
       mut <- getitem mu t ;;
       yp <- getitem y (t - 1) ;;
       Ok (float_add lib prob
             (float_mul lib (poisson_pmf lib (yt - j) mut)
                (binom_pmf lib j yp rho))))
    (Fin 0).

(** The value the inner loop leaves in [prob_y_t] when its three reads
    give [yt], [yp] and [mut]. *)
Definition loop_value (yt yp : Z) (mut rho : float) : float :=
  fold_left
    (fun prob j =>
       float_add lib prob
         (float_mul lib (poisson_pmf lib (yt - j) mut)
            (binom_pmf lib j yp rho)))
    (range (int (int64_add (Z.min yt yp) 1))) (Fin 0).

Definition nloglikeobs (self : Model) (params : list float)
  : result (list float) :=
  gamma <- getitem params (-1) ;;
  let beta := slice_but_last params in
  let y := endog self in
  let X := exog self in
  rho <- rho_of_gamma lib gamma ;;
  Xb <- ndarray_dot lib X beta ;;
  let mu := np_exp_array lib Xb in
  ll <- for_loop (range_down (len y - 1) 0)
          (fun ll t =>
             p <- prob_y_t y mu rho t ;;
             l <- math_log p ;;
             Ok (ll ++ [l]))
          [] ;;
  Ok (np_neg ll).

(** [mu_t = exp(dot(X_t, beta))], as the library computes it. *)
Definition poisson_rate (X : ndarray2) (beta : list float) (t : nat)
  : float :=
  np_exp lib (np_dot lib (nth t (rows X) []) beta).

(** The value of [prob_y_t] at time [t] for regression coefficients
    [beta] and thinning probability [rho]. *)
Definition term_value (self : Model) (beta : list float) (rho : float)
  (t : nat) : float :=
  loop_value (nth t (endog self) 0%Z) (nth (t - 1) (endog self) 0%Z)
    (poisson_rate (exog self) beta t) rho.

(** The sum of [f 0], ..., [f n], added to 0 in this order. *)
Fixpoint float_sum (f : nat -> float) (n : nat) : float :=
  match n with
  | O => float_add lib (Fin 0) (f O)
  | S i => float_add lib (float_sum f i) (f (S i))
  end.

(** [P(y_t | y_{t-1})] as the specification writes it: the sum over
    [j = 0 .. min(y_t, y_{t-1})] of
    [Poisson_pmf(y_t - j; mu_t) * Binomial_pmf(j; y_{t-1}, rho)]. *)
Definition conditional_probability (yt yp : Z) (mu rho : float) : float :=
  float_sum
    (fun j => float_mul lib (poisson_pmf lib (yt - Z.of_nat j) mu)
                (binom_pmf lib (Z.of_nat j) yp rho))
    (Z.to_nat (Z.min yt yp)).

End Likelihood.

(** ** Double precision *)

(** *** The exact mass functions *)

Module Exact.

(** The Poisson mass at [k] for rate [mu]. *)
Definition poisson_pmf (k : Z) (mu : R) : R :=
  if (k <? 0)%Z then 0
  else exp (- mu) * mu ^ Z.to_nat k / INR (fact (Z.to_nat k)).

(** The binomial mass at [k] for [n] trials of probability [p]. *)
Definition binom_pmf (k n : Z) (p : R) : R :=
  if ((0 <=? k) && (k <=? n))%Z
  then C (Z.to_nat n) (Z.to_nat k) * p ^ Z.to_nat k
       * (1 - p) ^ Z.to_nat (n - k)
  else 0.

End Exact.

(** *** The effects of the format *)

(** Half of the least positive double, [2^-1074]: a result of this size or
    less rounds to zero. *)
Definition underflow_bound : R := / 2 ^ 1075.

Definition flush (x : R) : R :=
  if Rle_dec (Rabs x) underflow_bound then 0 else x.

(** The largest double, and the bound from which a result rounds to an
    infinity. *)
Definition max_double : R := 2 ^ 1024 - 2 ^ 971.
Definition overflow_bound : R := 2 ^ 1024 - 2 ^ 970.

(** A finite result rounds to no more than the largest double. *)
Definition clamp (x : R) : R := Rmax (- max_double) (Rmin x max_double).

(** The float for the result [r] of an operation on finite values. *)
Definition fin_round (r : R) : float :=
  if Rle_dec overflow_bound r then PInf
  else if Rle_dec r (- overflow_bound) then NInf
  else Fin (flush (clamp r)).

Module Double.

(** [a + b]: a [b] of no more than [2^-54] times [a] is absorbed. *)
Definition add (a b : float) : float :=
  match a, b with
  | NaN, _ | _, NaN => NaN
  | PInf, NInf | NInf, PInf => NaN
  | PInf, _ | _, PInf => PInf
  | NInf, _ | _, NInf => NInf
  | Fin x, Fin y =>
      if Rle_dec (Rabs y) (Rabs x * / 2 ^ 54) then Fin x
      else fin_round (x + y)
  end.

(** An infinity of the given sign times, or divided by, the finite [x]. *)
Definition inf_times (plus : bool) (x : R) : float :=
  if Rlt_dec 0 x then (if plus then PInf else NInf)
  else if Rlt_dec x 0 then (if plus then NInf else PInf)
  else NaN.

(** [a * b] *)
Definition mul (a b : float) : float :=
  match a, b with
  | NaN, _ | _, NaN => NaN
  | Fin x, Fin y => fin_round (x * y)
  | PInf, Fin x | Fin x, PInf => inf_times true x
  | NInf, Fin x | Fin x, NInf => inf_times false x
  | PInf, PInf | NInf, NInf => PInf
  | PInf, NInf | NInf, PInf => NInf
  end.

(** [a / b] for a divisor that is not zero. *)
Definition div (a b : float) : float :=
  match a, b with
  | NaN, _ | _, NaN => NaN
  | Fin x, Fin y => fin_round (x / y)
  | Fin _, PInf | Fin _, NInf => Fin 0
  | PInf, Fin y => inf_times true y
  | NInf, Fin y => inf_times false y
  | PInf, PInf | PInf, NInf | NInf, PInf | NInf, NInf => NaN
  end.

(** [math.exp(x)]: a range error when the result of a finite argument
    overflows. *)
Definition math_exp (x : float) : result float :=
  match x with
  | Fin r => if Rle_dec overflow_bound (exp r) then Raise OverflowError
             else Ok (Fin (flush (clamp (exp r))))
  | PInf => Ok PInf
  | NInf => Ok (Fin 0)
  | NaN => Ok NaN
  end.

(** [np.exp(x)]: an overflowing result is infinite. *)
Definition np_exp (x : float) : float :=
  match x with
  | Fin r => fin_round (exp r)
  | PInf => PInf
  | NInf => Fin 0
  | NaN => NaN
  end.

(** One entry of [X.dot(b)]: the products of a row with [b], added up. *)
Definition dot (a b : list float) : float :=
  fold_left (fun acc xv => add acc (mul (fst xv) (snd xv))) (combine a b)
    (Fin 0).

(** [poisson.pmf(k, mu)]: not-a-number unless [mu] is finite and not
    negative. *)
Definition poisson_pmf (k : Z) (mu : float) : float :=
  match mu with
  | Fin m => if Rlt_dec m 0 then NaN
             else Fin (flush (Exact.poisson_pmf k m))
  | _ => NaN
  end.

(** [binom.pmf(k, n, p)]: not-a-number unless [n] is not negative and [p]
    is a probability. *)
Definition binom_pmf (k n : Z) (p : float) : float :=
  match p with
  | Fin q => if (n <? 0)%Z then NaN
             else if Rlt_dec q 0 then NaN
             else if Rlt_dec 1 q then NaN
             else Fin (flush (Exact.binom_pmf k n q))
  | _ => NaN
  end.

End Double.

(** The library of double precision: exact results on finite values, with
    the effects of the format that change what the code does: overflow,
    underflow to zero, and absorption in a sum. *)
Definition binary64 : library :=
  mk_library Double.add Double.mul Double.div Double.math_exp Double.np_exp
    Double.dot Double.poisson_pmf Double.binom_pmf.


(** ** The classes and their constructors *)

(** The classes of the source file, the imported base class, and [object].
    The library ancestors of [GenericLikelihoodModel] are left out: none of
    them is a class of this file. *)
Inductive pyclass : Type :=
| object_
| GenericLikelihoodModel
| INAR
| PoissonINAR.

Definition pyclass_eqb (a b : pyclass) : bool :=
  match a, b with
  | object_, object_ | GenericLikelihoodModel, GenericLikelihoodModel
  | INAR, INAR | PoissonINAR, PoissonINAR => true
  | _, _ => false
  end.

(** The base named in each [class] statement. *)
Definition base (c : pyclass) : option pyclass :=
  match c with
  | object_ => None
  | GenericLikelihoodModel => Some object_
  | INAR => Some GenericLikelihoodModel
  | PoissonINAR => Some GenericLikelihoodModel
  end.

(** Method resolution order under single inheritance: the class, then the
    order of its base. *)
Fixpoint mro_fuel (fuel : nat) (c : pyclass) : list pyclass :=
  match fuel with
  | O => [c]
  | S f => c :: match base c with
                | Some b => mro_fuel f b
                | None => []
                end
  end.

Definition mro (c : pyclass) : list pyclass := mro_fuel 3 c.

Definition isinstance (self_type cls : pyclass) : bool :=
  existsb (pyclass_eqb cls) (mro self_type).

(** The classes that follow [cls] in a resolution order. *)
Fixpoint after (cls : pyclass) (order : list pyclass) : list pyclass :=
  match order with
  | [] => []
  | c :: rest => if pyclass_eqb cls c then rest else after cls rest
  end.

(** [super(cls, self)]: a type error unless [self] is an instance of [cls];
    otherwise the proxy that resumes method lookup after [cls]. *)
Definition super (cls self_type : pyclass) : result (list pyclass) :=
  if isinstance self_type cls
  then Ok (after cls (mro self_type))
  else Raise TypeError.

Section Construction.

(** The constructors pass [endog] and [exog] on without looking at them:
    they are written for data of any type. *)
Variables Endog Exog Instance : Type.

(** [GenericLikelihoodModel.__init__], from the library. *)
Variable base_init : Endog -> Exog -> result Instance.

(** [proxy.__init__(endog, exog)]: the first initialiser in the proxy's
    order.  In every order of this file the class after [INAR] is
    [GenericLikelihoodModel]; [object.__init__] takes no arguments. *)
Definition proxy_init (proxy : list pyclass) (endog_ : Endog)
  (exog_ : Exog) : result Instance :=
  match proxy with
  | GenericLikelihoodModel :: _ => base_init endog_ exog_
  | _ => Raise TypeError
  end.

(** [INAR.__init__]: [super(INAR, self).__init__(endog, exog, **kwds)] *)
Definition INAR___init__ (self_type : pyclass) (endog_ : Endog)
  (exog_ : Exog) : result Instance :=
  proxy <- super INAR self_type ;;
  proxy_init proxy endog_ exog_.

(** [PoissonINAR.__init__]:
    [super(INAR, self).__init__(endog, exog, **kwds)] *)
Definition PoissonINAR___init__ (self_type : pyclass) (endog_ : Endog)
  (exog_ : Exog) : result Instance :=
  proxy <- super INAR self_type ;;
  proxy_init proxy endog_ exog_.

(** [cls(endog, exog)]: a new object of type [cls] is initialised by the
    [__init__] that [cls] defines or inherits. *)
Definition construct (cls : pyclass) (endog_ : Endog) (exog_ : Exog)
  : result Instance :=
  match cls with
  | PoissonINAR => PoissonINAR___init__ cls endog_ exog_
  | INAR => INAR___init__ cls endog_ exog_
  | GenericLikelihoodModel => base_init endog_ exog_
  | object_ => Raise TypeError
  end.

End Construction.

Arguments proxy_init {Endog Exog Instance} base_init proxy endog_ exog_.
Arguments INAR___init__ {Endog Exog Instance} base_init self_type endog_ exog_.
Arguments PoissonINAR___init__ {Endog Exog Instance} base_init self_type
  endog_ exog_.
Arguments construct {Endog Exog Instance} base_init cls endog_ exog_.

(** ** [PoissonINAR.fit] *)

(** An explicit [start_params]: a NumPy array, or a Python list or
    tuple. *)
Inductive pysequence : Type :=
| NdArray (a : list float)
| PyList (l : list float).

Definition values (s : pysequence) : list float :=
  match s with
  | NdArray a => a
  | PyList l => l
  end.

(** The value of [start_params == None]: a Python bool when [start_params]
    is [None], a list or a tuple, an elementwise array of bools when it is
    an array. *)
Inductive pyvalue : Type :=
| PyBool (b : bool)
| PyBoolArray (l : list bool).

Definition eq_None (start_params : option pysequence) : pyvalue :=
  match start_params with
  | None => PyBool true
  | Some (NdArray a) => PyBoolArray (map (fun _ => false) a)
  | Some (PyList _) => PyBool false
  end.

(** The truth value an [if] takes of its condition: that of an array with
    more than one element is ambiguous; an array of one element has the
    truth value of the element, and an empty array is false. *)
Definition truth (v : pyvalue) : result bool :=
  match v with
  | PyBool b => Ok b
  | PyBoolArray [] => Ok false
  | PyBoolArray [b] => Ok b
  | PyBoolArray (_ :: _ :: _) => Raise ValueError
  end.

(** [self.exog_names.append(name)] *)
Definition append_exog_name (self : Model) (name : string) : Model :=
  mk_Model (endog self) (exog self) (exog_names self ++ [name]).

Definition default_maxiter : Z := 1000.
Definition default_maxfun : Z := 5000.

Section Fit.

(** What the optimiser returns, and the inherited [fit] of the library:
    it receives the instance, [start_params] and the two caps, and
    returns the instance as it leaves it together with its outcome. *)
Variable FitResult : Type.
Variable super_fit :
  Model -> option pysequence -> Z -> Z -> Model * result FitResult.

(** The guard of [fit] and the assignment under it: the value of
    [start_params] after the [if]. *)
Definition start_params_after_guard (self : Model)
  (start_params : option pysequence) : result (option pysequence) :=
  is_none <- truth (eq_None start_params) ;;
  Ok (if (is_none : bool)
      then Some (NdArray (np_append (np_ones (shape1 (exog self))) (Fin 1)))
      else start_params).

Definition fit (self : Model) (start_params : option pysequence)
  (maxiter maxfun : Z) : Model * result FitResult :=
  let self := append_exog_name self "gamma" in
  match start_params_after_guard self start_params with
  | Raise e => (self, Raise e)
  | Ok start_params => super_fit self start_params maxiter maxfun
  end.

(** Successive calls of [fit] on one instance, one per argument triple. *)
Fixpoint fit_calls (self : Model)
  (calls : list (option pysequence * Z * Z)) : Model :=
  match calls with
  | [] => self
  | (sp, mi, mf) :: rest => fit_calls (fst (fit self sp mi mf)) rest
  end.

End Fit.

Arguments fit {FitResult} super_fit self start_params maxiter maxfun.
Arguments fit_calls {FitResult} super_fit self calls.

(** ** Sample data *)

(** A regressor matrix with [T] rows and the single intercept column. *)
Definition intercept_only (T : nat) : ndarray2 :=
  mk_ndarray2 (repeat [Fin 1] T) 1.

Definition counts_002 : Model :=
  mk_Model [0; 0; 2]%Z (intercept_only 3) ["Intercept"%string].

Definition counts_02 : Model :=
  mk_Model [0; 2]%Z (intercept_only 2) ["Intercept"%string].

Definition counts_00 : Model :=
  mk_Model [0; 0]%Z (intercept_only 2) ["Intercept"%string].

(** An optimiser that stops at once and returns its starting point. *)
Definition immediate_fit (m : Model) (start_params : option pysequence)
  (maxiter maxfun : Z) : Model * result (list float) :=
  (m, Ok (match start_params with Some s => values s | None => [] end)).



(** ** Derived data *)

(** The instance after one more count [v] with regressor row [r] is
    observed. *)
Definition observe (self : Model) (v : Z) (r : list float) : Model :=
  mk_Model (endog self ++ [v])
    (mk_ndarray2 (rows (exog self) ++ [r]) (ncols (exog self)))
    (exog_names self).

(** The instance with the first regressor row replaced by [r]. *)
Definition with_first_row (self : Model) (r : list float) : Model :=
  mk_Model (endog self)
    (mk_ndarray2 (r :: tl (rows (exog self))) (ncols (exog self)))
    (exog_names self).

(** * Properties *)

(** ** Sequences, ranges and loops *)

Lemma getitem_in_range {A} (l : list A) (i : nat) (d : A) :
  (i < length l)%nat -> getitem l (Z.of_nat i) = Ok (nth i l d).
Proof.
  intros Hi. unfold getitem, len.
  assert (Hneg : (Z.of_nat i <? 0)%Z = false) by (apply Z.ltb_ge; lia).
  rewrite Hneg.
  assert (Hlo : (0 <=? Z.of_nat i)%Z = true) by (apply Z.leb_le; lia).
  assert (Hhi : (Z.of_nat i <? Z.of_nat (length l))%Z = true)
    by (apply Z.ltb_lt; lia).
  rewrite Hlo, Hhi, Nat2Z.id. simpl.
  now rewrite (nth_error_nth' l d Hi).
Qed.

Lemma getitem_last {A} (l : list A) (a : A) :
  getitem (l ++ [a]) (-1) = Ok a.
Proof.
  unfold getitem, len. rewrite length_app. simpl length.
  replace (-1 <? 0)%Z with true by reflexivity.
  replace (-1 + Z.of_nat (length l + 1))%Z with (Z.of_nat (length l)) by lia.
  assert (Hlo : (0 <=? Z.of_nat (length l))%Z = true) by (apply Z.leb_le; lia).
  assert (Hhi : (Z.of_nat (length l) <? Z.of_nat (length l + 1))%Z = true)
    by (apply Z.ltb_lt; lia).
  rewrite Hlo, Hhi, Nat2Z.id. simpl.
  rewrite nth_error_app2 by lia. now rewrite Nat.sub_diag.
Qed.

Lemma slice_but_last_app {A} (l : list A) (a : A) :
  slice_but_last (l ++ [a]) = l.
Proof. apply removelast_last. Qed.

Lemma range_succ (n : nat) :
  range (Z.of_nat (S n)) = range (Z.of_nat n) ++ [Z.of_nat n].
Proof.
  unfold range. rewrite !Nat2Z.id, seq_S, map_app. reflexivity.
Qed.

Lemma range_nonpos (n : Z) : (n <= 0)%Z -> range n = [].
Proof.
  intros Hn. unfold range.
  replace (Z.to_nat n) with 0%nat by lia. reflexivity.
Qed.

Lemma range_down_length (n : nat) :
  length (range_down (Z.of_nat n) 0) = n.
Proof.
  unfold range_down. rewrite length_map, length_seq. lia.
Qed.

Lemma range_down_nth (n i : nat) :
  (i < n)%nat ->
  nth i (range_down (Z.of_nat n) 0) 0%Z = Z.of_nat (n - i).
Proof.
  intros Hi. unfold range_down.
  replace (Z.to_nat (Z.of_nat n - 0)) with n by lia.
  set (f := fun k : nat => (Z.of_nat n - Z.of_nat k)%Z).
  rewrite (nth_indep _ 0%Z (f 0%nat))
    by (rewrite length_map, length_seq; lia).
  rewrite map_nth, seq_nth by lia. unfold f. lia.
Qed.

Lemma range_down_In (n : nat) (t : Z) :
  In t (range_down (Z.of_nat n) 0) <-> (1 <= t <= Z.of_nat n)%Z.
Proof.
  unfold range_down. rewrite in_map_iff. split.
  - intros [i [<- Hin]]. apply in_seq in Hin. lia.
  - intros Ht. exists (Z.to_nat (Z.of_nat n - t)). split; [lia|].
    apply in_seq. lia.
Qed.

Lemma for_loop_ext {S A} (body1 body2 : S -> A -> result S)
  (items : list A) (s : S) :
  (forall s x, body1 s x = body2 s x) ->
  for_loop items body1 s = for_loop items body2 s.
Proof.
  intros Hb. revert s. induction items as [|x rest IH]; intros s; simpl.
  - reflexivity.
  - rewrite Hb. destruct (body2 s x); simpl; auto.
Qed.

(** A loop whose body never raises is a left fold. *)
Lemma for_loop_pure {S A} (f : S -> A -> S) (items : list A) (s : S) :
  for_loop items (fun s x => Ok (f s x)) s = Ok (fold_left f items s).
Proof.
  revert s. induction items as [|x rest IH]; intros s; simpl; auto.
Qed.

(** A loop whose body appends one value per item and never raises returns
    the values in the order of the items. *)
Lemma for_loop_append {A B} (f : A -> result B) (g : A -> B)
  (items : list A) (acc : list B) :
  (forall x, In x items -> f x = Ok (g x)) ->
  for_loop items (fun ll x => v <- f x ;; Ok (ll ++ [v])) acc
  = Ok (acc ++ map g items).
Proof.
  revert acc. induction items as [|x rest IH]; intros acc Hf; simpl.
  - now rewrite app_nil_r.
  - rewrite (Hf x (or_introl eq_refl)). simpl.
    rewrite IH by (intros z Hz; apply Hf; now right).
    now rewrite <- app_assoc.
Qed.

(** If the body raises [e] at some item and at every item either succeeds
    or raises [e], the loop raises [e]. *)
Lemma for_loop_raises {A B} (f : A -> result B) (e : exn)
  (items : list A) (acc : list B) :
  (forall x, In x items -> (exists v, f x = Ok v) \/ f x = Raise e) ->
  (exists x, In x items /\ f x = Raise e) ->
  for_loop items (fun ll x => v <- f x ;; Ok (ll ++ [v])) acc = Raise e.
Proof.
  revert acc. induction items as [|x rest IH]; intros acc Hall [z [Hz Hbad]].
  - destruct Hz.
  - simpl. destruct (Hall x (or_introl eq_refl)) as [[v Hv]|Hr].
    + rewrite Hv. simpl. apply IH.
      * intros w Hw. apply Hall. now right.
      * destruct Hz as [->|Hz]; [congruence|]. now exists z.
    + now rewrite Hr.
Qed.

Lemma getitem_empty {A} (i : Z) : getitem (@nil A) i = Raise IndexError.
Proof.
  unfold getitem, len. simpl length.
  destruct (i <? 0)%Z eqn:Hi.
  - assert (H : (0 <=? i + Z.of_nat 0)%Z = false)
      by (apply Z.leb_gt; apply Z.ltb_lt in Hi; lia).
    now rewrite H.
  - assert (H : (i <? Z.of_nat 0)%Z = false)
      by (apply Z.ltb_ge; apply Z.ltb_ge in Hi; lia).
    now rewrite H, andb_false_r.
Qed.

(** Reads at a positive index do not see the first element. *)
Lemma getitem_skips_head {A} (a b : A) (l : list A) (t : Z) :
  (1 <= t)%Z -> getitem (a :: l) t = getitem (b :: l) t.
Proof.
  intros Ht. unfold getitem, len. simpl length.
  assert (Hneg : (t <? 0)%Z = false) by (apply Z.ltb_ge; lia).
  rewrite Hneg.
  destruct ((0 <=? t) && (t <? Z.of_nat (S (length l))))%Z; [|reflexivity].
  destruct (Z.to_nat t) as [|k] eqn:Hk; [lia | reflexivity].
Qed.

Lemma range_down_first (n : nat) :
  range_down (Z.of_nat (S n)) 0
  = Z.of_nat (S n) :: range_down (Z.of_nat n) 0.
Proof.
  unfold range_down.
  replace (Z.to_nat (Z.of_nat (S n) - 0)) with (S n) by lia.
  replace (Z.to_nat (Z.of_nat n - 0)) with n by lia.
  change (seq 0 (S n)) with (0%nat :: seq 1 n). cbn [map].
  replace (Z.of_nat (S n) - Z.of_nat 0)%Z with (Z.of_nat (S n)) by lia.
  f_equal. rewrite <- seq_shift, map_map. apply map_ext. intros i. lia.
Qed.

Lemma range_down_positive (a t : Z) :
  In t (range_down a 0) -> (1 <= t)%Z.
Proof.
  unfold range_down. rewrite in_map_iff. intros [i [<- Hin]].
  apply in_seq in Hin. lia.
Qed.

Lemma for_loop_ext_in {S A} (body1 body2 : S -> A -> result S)
  (items : list A) (s : S) :
  (forall s x, In x items -> body1 s x = body2 s x) ->
  for_loop items body1 s = for_loop items body2 s.
Proof.
  revert s. induction items as [|x rest IH]; intros s Hb; simpl.
  - reflexivity.
  - rewrite Hb by now left. destruct (body2 s x); simpl; [|reflexivity].
    apply IH. intros s' z Hz. apply Hb. now right.
Qed.

(** A loop whose body can only succeed or raise [e] returns one value per
    item or raises [e]. *)
Lemma for_loop_outcomes {A B} (f : A -> result B) (e : exn)
  (items : list A) (acc : list B) :
  (forall x, In x items -> (exists v, f x = Ok v) \/ f x = Raise e) ->
  (exists vs, for_loop items (fun ll x => v <- f x ;; Ok (ll ++ [v])) acc
              = Ok (acc ++ vs)
              /\ length vs = length items)
  \/ for_loop items (fun ll x => v <- f x ;; Ok (ll ++ [v])) acc = Raise e.
Proof.
  revert acc. induction items as [|x rest IH]; intros acc Hall.
  - left. exists []. simpl. now rewrite app_nil_r.
  - simpl. destruct (Hall x (or_introl eq_refl)) as [[v Hv]|Hr].
    + rewrite Hv. simpl.
      destruct (IH (acc ++ [v])) as [[vs [Hvs Hlen]]|Hraise].
      * intros z Hz. apply Hall. now right.
      * left. exists (v :: vs). rewrite Hvs, <- app_assoc. simpl.
        split; [reflexivity | now rewrite Hlen].
      * now right.
    + right. now rewrite Hr.
Qed.

(** ** 64-bit integers *)

Lemma wrap64_id (z : Z) : is_int64 z -> wrap64 z = z.
Proof.
  unfold is_int64, wrap64, int64_half, int64_modulus. intros Hz.
  rewrite Z.mod_small by lia. lia.
Qed.

Lemma is_int64_min (a b : Z) : is_int64 a -> is_int64 b -> is_int64 (Z.min a b).
Proof. unfold is_int64. lia. Qed.

(** The number of passes of the inner loop: [min + 1] unless the sum wraps
    around, which it does at the largest 64-bit integer only. *)
Lemma inner_range_regular (m : Z) :
  (0 <= m < int64_half - 1)%Z -> int64_add m 1 = (m + 1)%Z.
Proof.
  intros Hm. unfold int64_add. apply wrap64_id.
  unfold is_int64, int64_half in *. lia.
Qed.

Lemma inner_range_negative (m : Z) :
  is_int64 m -> (m < 0)%Z -> (int64_add m 1 <= 0)%Z.
Proof.
  intros Hm Hneg. unfold int64_add. rewrite wrap64_id.
  - lia.
  - unfold is_int64, int64_half in *. lia.
Qed.

Lemma inner_range_wraps (m : Z) :
  m = (int64_half - 1)%Z -> (int64_add m 1 <= 0)%Z.
Proof. intros ->. vm_compute. discriminate. Qed.

Lemma int64_series_nth (y : list Z) (t : nat) :
  int64_series y -> is_int64 (nth t y 0%Z).
Proof.
  intros Hy. destruct (Nat.lt_ge_cases t (length y)) as [Hin|Hout].
  - unfold int64_series in Hy. rewrite Forall_forall in Hy.
    apply Hy, nth_In, Hin.
  - rewrite nth_overflow by exact Hout. unfold is_int64, int64_half. lia.
Qed.

(** ** Floats and logarithms *)

Lemma math_log_positive (x : float) :
  finite_positive x ->
  exists r, x = Fin r /\ 0 < r /\ math_log x = Ok (Fin (ln r)).
Proof.
  destruct x as [r| | |]; simpl; try contradiction.
  intros Hr. exists r. destruct (Rlt_dec 0 r); [auto | contradiction].
Qed.

Lemma math_log_nonpositive (x : float) :
  zero_or_negative x -> math_log x = Raise ValueError.
Proof.
  destruct x as [r| | |]; simpl; try contradiction; auto.
  intros Hr. destruct (Rlt_dec 0 r); [lra | reflexivity].
Qed.

(** [math.log] returns or raises its domain error. *)
Lemma math_log_cases (x : float) :
  (exists l, math_log x = Ok l) \/ math_log x = Raise ValueError.
Proof.
  destruct x as [r| | |]; simpl; eauto.
  destruct (Rlt_dec 0 r); eauto.
Qed.

Lemma math_log_value (x l : float) : math_log x = Ok l -> log_value x = l.
Proof. unfold log_value. now intros ->. Qed.

Lemma math_log_zero : math_log (Fin 0) = Raise ValueError.
Proof. apply math_log_nonpositive. simpl. lra. Qed.

(** ** The likelihood loop, for any library *)

Section LikelihoodFacts.

Variable lib : library.

(** Accumulating from 0 over [range(n+1)] is the sum for [j = 0 .. n]. *)
Lemma fold_range_sum (f : Z -> float) (n : nat) :
  fold_left (fun acc j => float_add lib acc (f j)) (range (Z.of_nat (S n)))
    (Fin 0)
  = float_sum lib (fun j => f (Z.of_nat j)) n.
Proof.
  induction n as [|n IH].
  - reflexivity.
  - rewrite range_succ, fold_left_app, IH. reflexivity.
Qed.

Lemma prob_y_t_value (y : list Z) (mu : list float) (rho : float) (t : Z)
  (yt yp : Z) (mut : float) :
  getitem y t = Ok yt ->
  getitem y (t - 1) = Ok yp ->
  getitem mu t = Ok mut ->
  prob_y_t lib y mu rho t = Ok (loop_value lib yt yp mut rho).
Proof.
  intros Hyt Hyp Hmu. unfold prob_y_t, loop_value.
  rewrite Hyt, Hyp, Hmu. cbn [bind]. apply for_loop_pure.
Qed.

(** Under the shapes of a bound model, the reads of one pass succeed. *)
Lemma prob_y_t_term (self : Model) (beta : list float) (rho : float)
  (t : nat) :
  shape0 (exog self) = length (endog self) ->
  (1 <= t < length (endog self))%nat ->
  prob_y_t lib (endog self)
    (np_exp_array lib (map (fun r => np_dot lib r beta) (rows (exog self))))
    rho (Z.of_nat t)
  = Ok (term_value lib self beta rho t).
Proof.
  intros Hrows Ht. unfold term_value, poisson_rate, shape0 in *.
  apply prob_y_t_value.
  - apply getitem_in_range. lia.
  - replace (Z.of_nat t - 1)%Z with (Z.of_nat (t - 1)) by lia.
    apply getitem_in_range. lia.
  - unfold np_exp_array. rewrite map_map.
    set (f := fun r : list float => np_exp lib (np_dot lib r beta)).
    change (np_exp lib (np_dot lib (nth t (rows (exog self)) []) beta))
      with (f (nth t (rows (exog self)) [])).
    rewrite <- map_nth.
    rewrite (getitem_in_range _ t (f [])); [reflexivity|].
    rewrite length_map. lia.
Qed.

Lemma loop_value_sum (yt yp : Z) (mut rho : float) :
  (0 <= Z.min yt yp < int64_half - 1)%Z ->
  loop_value lib yt yp mut rho = conditional_probability lib yt yp mut rho.
Proof.
  intros Hm. unfold loop_value, conditional_probability, int.
  rewrite inner_range_regular by exact Hm.
  replace (Z.min yt yp + 1)%Z with (Z.of_nat (S (Z.to_nat (Z.min yt yp))))
    by lia.
  apply (fold_range_sum
           (fun j => float_mul lib (poisson_pmf lib (yt - j) mut)
                       (binom_pmf lib j yp rho))).
Qed.

Lemma loop_value_empty (yt yp : Z) (mut rho : float) :
  (int64_add (Z.min yt yp) 1 <= 0)%Z ->
  loop_value lib yt yp mut rho = Fin 0.
Proof.
  intros Hm. unfold loop_value, int. rewrite range_nonpos by exact Hm.
  reflexivity.
Qed.

(** The loop accumulates over [j = 0 .. min(yt, yp)], or makes no pass
    and leaves 0. *)
Lemma loop_value_cases (yt yp : Z) (mut rho : float) :
  is_int64 yt -> is_int64 yp ->
  ((0 <= Z.min yt yp)%Z
   /\ loop_value lib yt yp mut rho
      = conditional_probability lib yt yp mut rho)
  \/ loop_value lib yt yp mut rho = Fin 0.
Proof.
  intros Hyt Hyp. pose proof (is_int64_min _ _ Hyt Hyp) as Hm.
  destruct (Z_lt_le_dec (Z.min yt yp) 0) as [Hneg|Hpos].
  - right. apply loop_value_empty. now apply inner_range_negative.
  - destruct (Z.eq_dec (Z.min yt yp) (int64_half - 1)) as [Htop|Hlow].
    + right. apply loop_value_empty. now apply inner_range_wraps.
    + left. split; [exact Hpos|]. apply loop_value_sum.
      unfold is_int64 in Hm. lia.
Qed.

(** The statements before the loop, when line 35 leaves [rho]. *)
Lemma nloglikeobs_unfold (self : Model) (beta : list float)
  (gamma rho : float) :
  shape1 (exog self) = length beta ->
  rho_of_gamma lib gamma = Ok rho ->
  nloglikeobs lib self (beta ++ [gamma])
  = (ll <- for_loop
             (range_down (Z.of_nat (length (endog self) - 1)) 0)
             (fun ll t =>
                l <- (p <- prob_y_t lib (endog self)
                            (np_exp_array lib
                               (map (fun r => np_dot lib r beta)
                                  (rows (exog self))))
                            rho t ;;
                      math_log p) ;;
                Ok (ll ++ [l]))
             [] ;;
     Ok (np_neg ll)).
Proof.
  intros Hcols He. unfold nloglikeobs.
  rewrite getitem_last, slice_but_last_app. cbn [bind].
  rewrite He. cbn [bind].
  unfold ndarray_dot. rewrite Hcols, Nat.eqb_refl. cbn [bind].
  assert (Hr : range_down (len (endog self) - 1) 0
               = range_down (Z.of_nat (length (endog self) - 1)) 0).
  { unfold range_down, len. destruct (length (endog self)) as [|n].
    - reflexivity.
    - replace (Z.of_nat (S n) - 1)%Z with (Z.of_nat (S n - 1)) by lia.
      reflexivity. }
  rewrite Hr. f_equal. apply for_loop_ext. intros ll t.
  now destruct (prob_y_t _ _ _ _ t).
Qed.

(** When line 35 raises, so does the method. *)
Lemma nloglikeobs_rho_raises (self : Model) (beta : list float)
  (gamma : float) (ex : exn) :
  rho_of_gamma lib gamma = Raise ex ->
  nloglikeobs lib self (beta ++ [gamma]) = Raise ex.
Proof.
  intros He. unfold nloglikeobs.
  rewrite getitem_last. cbn [bind]. now rewrite He.
Qed.

Lemma loop_pass (self : Model) (beta : list float) (rho : float) (t : Z) :
  shape0 (exog self) = length (endog self) ->
  In t (range_down (Z.of_nat (length (endog self) - 1)) 0) ->
  (p <- prob_y_t lib (endog self)
          (np_exp_array lib
             (map (fun r => np_dot lib r beta) (rows (exog self))))
          rho t ;;
   math_log p)
  = math_log (term_value lib self beta rho (Z.to_nat t)).
Proof.
  intros Hrows Hin. apply range_down_In in Hin.
  rewrite <- (Z2Nat.id t) at 1 by lia.
  rewrite prob_y_t_term by (auto; lia). reflexivity.
Qed.

(** When line 35 leaves [rho] and [math.log] returns on every accumulated
    sum, the method returns the negated logarithms in the order of the
    loop. *)
Lemma nloglikeobs_ok (self : Model) (beta : list float)
  (gamma rho : float) :
  shape0 (exog self) = length (endog self) ->
  shape1 (exog self) = length beta ->
  rho_of_gamma lib gamma = Ok rho ->
  (forall t, (1 <= t < length (endog self))%nat ->
             exists l, math_log (term_value lib self beta rho t) = Ok l) ->
  nloglikeobs lib self (beta ++ [gamma])
  = Ok (map (fun t => float_neg
                        (log_value (term_value lib self beta rho
                                      (Z.to_nat t))))
          (range_down (Z.of_nat (length (endog self) - 1)) 0)).
Proof.
  intros Hrows Hcols He Hlog.
  rewrite (nloglikeobs_unfold self beta gamma rho) by assumption.
  rewrite (for_loop_append _
             (fun t => log_value (term_value lib self beta rho
                                    (Z.to_nat t)))).
  - cbn [bind app]. unfold np_neg. now rewrite map_map.
  - intros t Hin. rewrite loop_pass by assumption.
    apply range_down_In in Hin.
    destruct (Hlog (Z.to_nat t)) as [l Hl]; [lia|].
    now rewrite (math_log_value _ _ Hl).
Qed.

(** When line 35 leaves [rho] and [math.log] raises on some accumulated
    sum, nothing catches its error. *)
Lemma nloglikeobs_raises (self : Model) (beta : list float)
  (gamma rho : float) :
  shape0 (exog self) = length (endog self) ->
  shape1 (exog self) = length beta ->
  rho_of_gamma lib gamma = Ok rho ->
  (exists t, (1 <= t < length (endog self))%nat /\
             math_log (term_value lib self beta rho t) = Raise ValueError) ->
  nloglikeobs lib self (beta ++ [gamma]) = Raise ValueError.
Proof.
  intros Hrows Hcols He [t [Ht Hbad]].
  rewrite (nloglikeobs_unfold self beta gamma rho) by assumption.
  rewrite (for_loop_raises _ ValueError); [reflexivity| |].
  - intros z Hin. rewrite loop_pass by assumption. apply math_log_cases.
  - exists (Z.of_nat t). assert (Hin : In (Z.of_nat t)
      (range_down (Z.of_nat (length (endog self) - 1)) 0))
      by (apply range_down_In; lia).
    split; [exact Hin|]. rewrite loop_pass by assumption.
    now rewrite Nat2Z.id.
Qed.

(** A returned value shows that [math.log] returned on every pass. *)
Lemma nloglikeobs_returned (self : Model) (beta : list float)
  (gamma rho : float) (ll : list float) :
  shape0 (exog self) = length (endog self) ->
  shape1 (exog self) = length beta ->
  rho_of_gamma lib gamma = Ok rho ->
  nloglikeobs lib self (beta ++ [gamma]) = Ok ll ->
  (forall t, (1 <= t < length (endog self))%nat ->
             exists l, math_log (term_value lib self beta rho t) = Ok l)
  /\ ll = map (fun t => float_neg
                          (log_value (term_value lib self beta rho
                                        (Z.to_nat t))))
            (range_down (Z.of_nat (length (endog self) - 1)) 0).
Proof.
  intros Hrows Hcols He Hll.
  assert (Hlog : forall t, (1 <= t < length (endog self))%nat ->
                   exists l, math_log (term_value lib self beta rho t)
                             = Ok l).
  { intros t Ht.
    destruct (math_log_cases (term_value lib self beta rho t))
      as [Hok|Hbad]; [exact Hok|].
    exfalso.
    rewrite (nloglikeobs_raises self beta gamma rho) in Hll;
      auto; [discriminate|].
    exists t. split; [exact Ht | exact Hbad]. }
  split; [exact Hlog|].
  rewrite (nloglikeobs_ok self beta gamma rho) in Hll by assumption.
  now injection Hll.
Qed.

(** A sum on which [math.log] returns was accumulated over
    [j = 0 .. min(y_t, y_{t-1})]: it is the conditional probability of the
    specification. *)
Lemma term_value_conditional (self : Model) (beta : list float)
  (rho : float) (t : nat) (l : float) :
  int64_series (endog self) ->
  math_log (term_value lib self beta rho t) = Ok l ->
  term_value lib self beta rho t
  = conditional_probability lib (nth t (endog self) 0%Z)
      (nth (t - 1) (endog self) 0%Z)
      (poisson_rate lib (exog self) beta t) rho.
Proof.
  intros Hy Hl. unfold term_value in *.
  destruct (loop_value_cases (nth t (endog self) 0%Z)
              (nth (t - 1) (endog self) 0%Z)
              (poisson_rate lib (exog self) beta t) rho)
    as [[_ Heq]|Hzero]; try (now apply int64_series_nth).
  - exact Heq.
  - rewrite Hzero, math_log_zero in Hl. discriminate.
Qed.

Lemma conditional_prev_zero (yt : Z) (mu rho : float) :
  (0 <= yt)%Z ->
  conditional_probability lib yt 0 mu rho
  = float_add lib (Fin 0)
      (float_mul lib (poisson_pmf lib yt mu) (binom_pmf lib 0 0 rho)).
Proof.
  intros Hyt. unfold conditional_probability. rewrite Z.min_r by assumption.
  cbn [Z.to_nat float_sum Z.of_nat]. now replace (yt - 0)%Z with yt by lia.
Qed.

(** With no previous count the sum has the single term [j = 0]. *)
Lemma loop_value_prev_zero (yt : Z) (mu rho : float) :
  (0 <= yt)%Z ->
  loop_value lib yt 0 mu rho
  = float_add lib (Fin 0)
      (float_mul lib (poisson_pmf lib yt mu) (binom_pmf lib 0 0 rho)).
Proof.
  intros Hyt. rewrite loop_value_sum.
  - now apply conditional_prev_zero.
  - rewrite Z.min_r by assumption. unfold int64_half. lia.
Qed.

End LikelihoodFacts.

Lemma map_range_down_nth {B} (F : Z -> B) (n i : nat) (d : B) :
  (i < n)%nat ->
  nth i (map F (range_down (Z.of_nat n) 0)) d = F (Z.of_nat (n - i)).
Proof.
  intros Hi.
  rewrite (nth_indep _ d (F 0%Z))
    by (rewrite length_map, range_down_length; exact Hi).
  rewrite map_nth, range_down_nth by exact Hi. reflexivity.
Qed.

Lemma int64_series_small (y : list Z) :
  Forall (fun v => (- 1000 <= v <= 1000)%Z) y -> int64_series y.
Proof.
  intros Hy. unfold int64_series. eapply Forall_impl; [|exact Hy].
  intros v Hv. unfold is_int64, int64_half. simpl in Hv. lia.
Qed.

(** ** The double-precision library *)

Lemma pow2_pos (n : nat) : 0 < 2 ^ n.
Proof. apply pow_lt. lra. Qed.

Lemma pow2_ge_1 (n : nat) : 1 <= 2 ^ n.
Proof. apply pow_R1_Rle. lra. Qed.

Lemma pow2_1024_split : 2 ^ 1024 = 2 ^ 54 * 2 ^ 970.
Proof. rewrite <- pow_add. reflexivity. Qed.

Lemma pow2_971_split : 2 ^ 971 = 2 * 2 ^ 970.
Proof. reflexivity. Qed.

Lemma pow2_54_ge_4 : 4 <= 2 ^ 54.
Proof.
  replace 4 with (2 ^ 2) by (simpl; lra). apply Rle_pow; [lra | lia].
Qed.

Lemma max_double_bounds :
  2 <= max_double /\ 1 + max_double < overflow_bound
  /\ max_double < 2 ^ 1024.
Proof.
  unfold max_double, overflow_bound.
  rewrite pow2_1024_split, pow2_971_split.
  pose proof pow2_54_ge_4 as H54. pose proof (pow2_ge_1 970) as H970.
  repeat split; nra.
Qed.

Lemma underflow_bound_pos : 0 < underflow_bound.
Proof. unfold underflow_bound. apply Rinv_0_lt_compat, pow2_pos. Qed.

Lemma underflow_bound_small : underflow_bound < / 8.
Proof.
  unfold underflow_bound. replace 8 with (2 ^ 3) by (simpl; lra).
  apply Rinv_lt_contravar.
  - apply Rmult_lt_0_compat; apply pow2_pos.
  - apply Rlt_pow; [lra | lia].
Qed.




Lemma flush_id (x : R) : underflow_bound < Rabs x -> flush x = x.
Proof.
  intros Hx. unfold flush.
  destruct (Rle_dec (Rabs x) underflow_bound) as [Hle|_]; [lra | reflexivity].
Qed.

Lemma flush_id_pos (x : R) : underflow_bound < x -> flush x = x.
Proof.
  intros Hx. apply flush_id. pose proof underflow_bound_pos.
  rewrite Rabs_pos_eq; lra.
Qed.

Lemma flush_zero (x : R) : 0 <= x <= underflow_bound -> flush x = 0.
Proof.
  intros Hx. unfold flush.
  destruct (Rle_dec (Rabs x) underflow_bound) as [_|Hn]; [reflexivity|].
  rewrite Rabs_pos_eq in Hn by lra. lra.
Qed.


Lemma clamp_id (x : R) : - max_double <= x <= max_double -> clamp x = x.
Proof.
  intros Hx. unfold clamp. rewrite Rmin_left by lra. apply Rmax_right. lra.
Qed.




(** A result that neither overflows nor underflows is kept. *)
Lemma fin_round_id (r : R) :
  underflow_bound < Rabs r -> - max_double <= r <= max_double ->
  fin_round r = Fin r.
Proof.
  intros Hlo Hr. destruct max_double_bounds as [Hm [Hb _]].
  unfold fin_round.
  destruct (Rle_dec overflow_bound r) as [H|_]; [lra|].
  destruct (Rle_dec r (- overflow_bound)) as [H|_]; [lra|].
  rewrite clamp_id by exact Hr. now rewrite flush_id.
Qed.

Lemma fin_round_id_pos (r : R) :
  underflow_bound < r -> r <= max_double -> fin_round r = Fin r.
Proof.
  intros Hlo Hhi. pose proof underflow_bound_pos.
  apply fin_round_id; [rewrite Rabs_pos_eq; lra | lra].
Qed.

Lemma fin_round_0 : fin_round 0 = Fin 0.
Proof.
  destruct max_double_bounds as [Hm [Hb _]]. unfold fin_round.
  destruct (Rle_dec overflow_bound 0) as [H|_]; [lra|].
  destruct (Rle_dec 0 (- overflow_bound)) as [H|_]; [lra|].
  rewrite clamp_id by lra. rewrite flush_zero; [reflexivity|].
  pose proof underflow_bound_pos. lra.
Qed.

(** *** Bounds on exponentials *)

Lemma ln_2_pos : 0 < ln 2.
Proof. rewrite <- ln_1. apply ln_increasing; lra. Qed.

Lemma ln_2_upper : ln 2 < 37 / 50.
Proof.
  pose proof (exp_ineq1_le (37 / 400)) as H1.
  assert (H2 : exp (37 / 200) = exp (37 / 400) * exp (37 / 400)).
  { rewrite <- exp_plus. f_equal. lra. }
  assert (H4 : exp (37 / 100) = exp (37 / 200) * exp (37 / 200)).
  { rewrite <- exp_plus. f_equal. lra. }
  assert (H8 : exp (37 / 50) = exp (37 / 100) * exp (37 / 100)).
  { rewrite <- exp_plus. f_equal. lra. }
  assert (B2 : 1193 / 1000 <= exp (37 / 200)) by nra.
  assert (B4 : 1423 / 1000 <= exp (37 / 100)) by nra.
  assert (B8 : 2 < exp (37 / 50)) by nra.
  assert (Hl : ln 2 < ln (exp (37 / 50))) by (apply ln_increasing; lra).
  now rewrite ln_exp in Hl.
Qed.


Lemma pow2_as_exp (n : nat) : 2 ^ n = exp (INR n * ln 2).
Proof.
  rewrite <- ln_pow by lra. symmetry. apply exp_ln, pow2_pos.
Qed.

Lemma inv_pow2_as_exp (n : nat) : / 2 ^ n = exp (- (INR n * ln 2)).
Proof. rewrite exp_Ropp. f_equal. apply pow2_as_exp. Qed.

Lemma exp_le (x y : R) : x <= y -> exp x <= exp y.
Proof.
  intros Hxy. destruct (Rle_lt_or_eq_dec _ _ Hxy) as [Hlt | ->]; [|lra].
  left. now apply exp_increasing.
Qed.

(** [exp(-800)] is below the least positive double. *)
Lemma exp_underflows (x : R) :
  x <= - 800 -> 0 <= exp x <= underflow_bound.
Proof.
  intros Hx. split; [left; apply exp_pos|].
  unfold underflow_bound. rewrite inv_pow2_as_exp.
  assert (HI : INR 1075 = 1075) by (rewrite INR_IZR_INZ; reflexivity).
  rewrite HI. pose proof ln_2_upper. apply exp_le. lra.
Qed.

(** [exp(1000)] is above the largest double. *)
Lemma exp_overflows (x : R) : 1000 <= x -> overflow_bound <= exp x.
Proof.
  intros Hx. apply Rle_trans with (2 ^ 1024).
  - unfold overflow_bound. pose proof (pow2_pos 970). lra.
  - rewrite pow2_as_exp.
    assert (HI : INR 1024 = 1024) by (rewrite INR_IZR_INZ; reflexivity).
    rewrite HI. pose proof ln_2_upper. apply exp_le. lra.
Qed.


Lemma exp_minus_1_bounds : / 3 <= exp (- (1)) <= 1.
Proof.
  rewrite exp_Ropp. pose proof exp_le_3 as H3.
  pose proof (exp_ineq1_le 1) as H1. split.
  - apply Rinv_le_contravar; lra.
  - assert (H : / exp 1 <= / 1) by (apply Rinv_le_contravar; lra).
    now rewrite Rinv_1 in H.
Qed.

Lemma exp_10_bounds : 1024 <= exp 10 <= 59049.
Proof.
  pose proof (exp_ineq1_le 1) as H1. pose proof exp_le_3 as H3.
  assert (H2 : exp 2 = exp 1 * exp 1) by (rewrite <- exp_plus; f_equal; lra).
  assert (H4 : exp 4 = exp 2 * exp 2) by (rewrite <- exp_plus; f_equal; lra).
  assert (H8 : exp 8 = exp 4 * exp 4) by (rewrite <- exp_plus; f_equal; lra).
  assert (H10 : exp 10 = exp 8 * exp 2)
    by (rewrite <- exp_plus; f_equal; lra).
  assert (B2 : 4 <= exp 2 <= 9) by nra.
  assert (B4 : 16 <= exp 4 <= 81) by nra.
  assert (B8 : 256 <= exp 8 <= 6561) by nra.
  nra.
Qed.

(** *** The operations at the sample values *)

Lemma max_double_large : 65536 <= max_double.
Proof.
  unfold max_double. rewrite pow2_1024_split, pow2_971_split.
  pose proof (pow2_ge_1 970) as H970.
  assert (H54 : 2 ^ 18 <= 2 ^ 54) by (apply Rle_pow; [lra | lia]).
  assert (H18 : 2 ^ 18 = 262144) by (simpl; lra).
  rewrite H18 in H54. nra.
Qed.

Lemma double_add_0_0 : Double.add (Fin 0) (Fin 0) = Fin 0.
Proof.
  unfold Double.add. destruct (Rle_dec _ _) as [_|Hn]; [reflexivity|].
  exfalso. apply Hn. rewrite Rabs_R0. lra.
Qed.

Lemma double_add_0_l (v : R) :
  underflow_bound < v -> v <= max_double ->
  Double.add (Fin 0) (Fin v) = Fin v.
Proof.
  intros Hlo Hhi. pose proof underflow_bound_pos as Hu. unfold Double.add.
  destruct (Rle_dec _ _) as [Hle|_].
  - rewrite Rabs_R0, Rmult_0_l, Rabs_pos_eq in Hle by lra. lra.
  - rewrite Rplus_0_l. now apply fin_round_id_pos.
Qed.

Lemma double_mul_1_r (v : R) :
  underflow_bound < v -> v <= max_double ->
  Double.mul (Fin v) (Fin 1) = Fin v.
Proof.
  intros Hlo Hhi. unfold Double.mul. rewrite Rmult_1_r.
  now apply fin_round_id_pos.
Qed.

Lemma double_mul_0_l (w : R) : Double.mul (Fin 0) (Fin w) = Fin 0.
Proof. unfold Double.mul. rewrite Rmult_0_l. apply fin_round_0. Qed.

Lemma double_mul_0_r (w : R) : Double.mul (Fin w) (Fin 0) = Fin 0.
Proof. unfold Double.mul. rewrite Rmult_0_r. apply fin_round_0. Qed.


Lemma double_add_1_1 : Double.add (Fin 1) (Fin 1) = Fin 2.
Proof.
  destruct max_double_bounds as [Hm _]. pose proof underflow_bound_small.
  unfold Double.add. destruct (Rle_dec _ _) as [Hle|_].
  - rewrite Rabs_R1, Rmult_1_l in Hle.
    assert (H54 : / 2 ^ 54 < 1).
    { rewrite <- Rinv_1. apply Rinv_lt_contravar.
      - rewrite Rmult_1_l. apply pow2_pos.
      - pose proof pow2_54_ge_4. lra. }
    lra.
  - replace (1 + 1) with 2 by lra. apply fin_round_id_pos; lra.
Qed.

Lemma binary64_truediv_1_2 : truediv binary64 (Fin 1) (Fin 2) = Ok (Fin (1 / 2)).
Proof.
  destruct max_double_bounds as [Hm _]. pose proof underflow_bound_small.
  unfold truediv. destruct (Req_dec_T 2 0) as [H0|_]; [lra|].
  cbn [float_div binary64 Double.div].
  rewrite fin_round_id_pos by lra. reflexivity.
Qed.


Lemma flush_clamp_id (x : R) :
  underflow_bound < x -> x <= max_double -> flush (clamp x) = x.
Proof.
  intros Hlo Hhi. pose proof underflow_bound_pos.
  rewrite clamp_id by lra. now apply flush_id_pos.
Qed.

Lemma binary64_math_exp_0 :
  math_exp binary64 (float_neg (Fin 0)) = Ok (Fin 1).
Proof.
  destruct max_double_bounds as [Hm [Hb _]]. pose proof underflow_bound_small.
  cbn [math_exp binary64 float_neg Double.math_exp].
  rewrite Ropp_0, exp_0.
  destruct (Rle_dec overflow_bound 1) as [Ho|_]; [lra|].
  rewrite flush_clamp_id by lra. reflexivity.
Qed.

Lemma binary64_math_exp_overflows (x : R) :
  1000 <= x -> math_exp binary64 (Fin x) = Raise OverflowError.
Proof.
  intros Hx. cbn [math_exp binary64 Double.math_exp].
  destruct (Rle_dec overflow_bound (exp x)) as [_|Hn]; [reflexivity|].
  exfalso. apply Hn. now apply exp_overflows.
Qed.



(** [rho] at the sample values of [gamma]. *)

Lemma binary64_rho_0 : rho_of_gamma binary64 (Fin 0) = Ok (Fin (1 / 2)).
Proof.
  unfold rho_of_gamma. rewrite binary64_math_exp_0. cbn [bind].
  cbn [float_add binary64]. rewrite double_add_1_1.
  apply binary64_truediv_1_2.
Qed.

Lemma binary64_rho_overflows (g : R) :
  g <= - 1000 -> rho_of_gamma binary64 (Fin g) = Raise OverflowError.
Proof.
  intros Hg. unfold rho_of_gamma. cbn [float_neg].
  rewrite binary64_math_exp_overflows by lra. reflexivity.
Qed.



(** The rates and the mass functions at the sample data. *)

Lemma double_dot_intercept_0 : Double.dot [Fin 1] [Fin 0] = Fin 0.
Proof.
  unfold Double.dot. cbn [combine fold_left fst snd].
  rewrite double_mul_0_r. apply double_add_0_0.
Qed.

Lemma double_dot_intercept_pos (b : R) :
  1 <= b <= 3000 -> Double.dot [Fin 1] [Fin b] = Fin b.
Proof.
  intros Hb. destruct max_double_bounds as [Hm _].
  pose proof underflow_bound_small as Hu.
  pose proof max_double_large as Hbig.
  unfold Double.dot. cbn [combine fold_left fst snd].
  unfold Double.mul. rewrite Rmult_1_l.
  rewrite fin_round_id_pos by lra.
  apply double_add_0_l; lra.
Qed.

Lemma intercept_row (T t : nat) :
  (t < T)%nat -> nth t (rows (intercept_only T)) [] = [Fin 1].
Proof.
  intros Ht. unfold intercept_only. cbn [rows].
  rewrite (nth_indep _ [] [Fin 1]) by (rewrite repeat_length; exact Ht).
  apply nth_repeat.
Qed.

Lemma binary64_rate_beta_0 (T t : nat) :
  (t < T)%nat -> poisson_rate binary64 (intercept_only T) [Fin 0] t = Fin 1.
Proof.
  intros Ht. destruct max_double_bounds as [Hm _].
  pose proof underflow_bound_small as Hu.
  unfold poisson_rate. rewrite intercept_row by exact Ht.
  cbn [np_dot np_exp binary64]. rewrite double_dot_intercept_0.
  cbn [Double.np_exp]. rewrite exp_0. apply fin_round_id_pos; lra.
Qed.

Lemma binary64_rate_beta_10 (T t : nat) :
  (t < T)%nat ->
  poisson_rate binary64 (intercept_only T) [Fin 10] t = Fin (exp 10).
Proof.
  intros Ht. pose proof underflow_bound_small as Hu.
  pose proof max_double_large as Hbig. pose proof exp_10_bounds as He.
  unfold poisson_rate. rewrite intercept_row by exact Ht.
  cbn [np_dot np_exp binary64]. rewrite double_dot_intercept_pos by lra.
  cbn [Double.np_exp]. apply fin_round_id_pos; lra.
Qed.

Lemma binary64_rate_overflows (T t : nat) :
  (t < T)%nat ->
  poisson_rate binary64 (intercept_only T) [Fin 1000] t = PInf.
Proof.
  intros Ht. unfold poisson_rate. rewrite intercept_row by exact Ht.
  cbn [np_dot np_exp binary64]. rewrite double_dot_intercept_pos by lra.
  cbn [Double.np_exp]. unfold fin_round.
  destruct (Rle_dec overflow_bound (exp 1000)) as [_|Hn]; [reflexivity|].
  exfalso. apply Hn, exp_overflows. lra.
Qed.

Lemma binary64_poisson_0_rate_1 :
  poisson_pmf binary64 0 (Fin 1) = Fin (exp (- (1))).
Proof.
  cbn [poisson_pmf binary64 Double.poisson_pmf].
  destruct (Rlt_dec 1 0) as [H|_]; [lra|].
  unfold Exact.poisson_pmf. simpl.
  replace (exp (- (1)) * 1 / 1) with (exp (- (1))) by field.
  rewrite flush_id_pos; [reflexivity|].
  pose proof exp_minus_1_bounds. pose proof underflow_bound_small. lra.
Qed.

Lemma binary64_poisson_2_rate_1 :
  poisson_pmf binary64 2 (Fin 1) = Fin (exp (- (1)) / 2).
Proof.
  cbn [poisson_pmf binary64 Double.poisson_pmf].
  destruct (Rlt_dec 1 0) as [H|_]; [lra|].
  unfold Exact.poisson_pmf.
  simpl Z.ltb. cbv iota. change (Z.to_nat 2) with 2%nat. simpl.
  replace (exp (- (1)) * (1 * (1 * 1)) / (1 + 1)) with (exp (- (1)) / 2)
    by field.
  rewrite flush_id_pos; [reflexivity|].
  pose proof exp_minus_1_bounds. pose proof underflow_bound_small. lra.
Qed.

(** The mass at 0 of a rate of 800 or more underflows. *)
Lemma binary64_poisson_0_underflows (m : R) :
  800 <= m -> poisson_pmf binary64 0 (Fin m) = Fin 0.
Proof.
  intros Hm. cbn [poisson_pmf binary64 Double.poisson_pmf].
  destruct (Rlt_dec m 0) as [H|_]; [lra|].
  unfold Exact.poisson_pmf. simpl.
  replace (exp (- m) * 1 / 1) with (exp (- m)) by field.
  rewrite flush_zero; [reflexivity|]. apply exp_underflows. lra.
Qed.

Lemma exact_binom_0_0 (p : R) : Exact.binom_pmf 0 0 p = 1.
Proof.
  unfold Exact.binom_pmf. simpl. unfold C. simpl. field.
Qed.

Lemma binary64_binom_0_0 (q : R) :
  0 <= q <= 1 -> binom_pmf binary64 0 0 (Fin q) = Fin 1.
Proof.
  intros Hq. cbn [binom_pmf binary64 Double.binom_pmf].
  change (0 <? 0)%Z with false. cbv iota.
  destruct (Rlt_dec q 0) as [H|_]; [lra|].
  destruct (Rlt_dec 1 q) as [H|_]; [lra|].
  rewrite exact_binom_0_0, flush_id_pos; [reflexivity|].
  pose proof underflow_bound_small. lra.
Qed.

(** The accumulated sums of the sample series. *)

Lemma binary64_single_term (p q : R) :
  underflow_bound < p <= 1 -> 0 <= q <= 1 ->
  float_add binary64 (Fin 0)
    (float_mul binary64 (Fin p) (binom_pmf binary64 0 0 (Fin q)))
  = Fin p.
Proof.
  intros Hp Hq. destruct max_double_bounds as [Hm _].
  rewrite binary64_binom_0_0 by exact Hq. cbn [float_add float_mul binary64].
  rewrite double_mul_1_r by lra. apply double_add_0_l; lra.
Qed.

Lemma counts_002_term_1 (q : R) :
  0 <= q <= 1 ->
  term_value binary64 counts_002 [Fin 0] (Fin q) 1 = Fin (exp (- (1))).
Proof.
  intros Hq. unfold term_value. cbn [counts_002 endog exog nth Nat.sub].
  rewrite loop_value_prev_zero by lia.
  rewrite binary64_rate_beta_0 by lia.
  rewrite binary64_poisson_0_rate_1. apply binary64_single_term; [|exact Hq].
  pose proof exp_minus_1_bounds. pose proof underflow_bound_small. lra.
Qed.

Lemma counts_002_term_2 (q : R) :
  0 <= q <= 1 ->
  term_value binary64 counts_002 [Fin 0] (Fin q) 2 = Fin (exp (- (1)) / 2).
Proof.
  intros Hq. unfold term_value. cbn [counts_002 endog exog nth Nat.sub].
  rewrite loop_value_prev_zero by lia.
  rewrite binary64_rate_beta_0 by lia.
  rewrite binary64_poisson_2_rate_1. apply binary64_single_term; [|exact Hq].
  pose proof exp_minus_1_bounds. pose proof underflow_bound_small. lra.
Qed.

Lemma counts_002_terms_pos (q : R) (t : nat) :
  0 <= q <= 1 -> (1 <= t <= 2)%nat ->
  finite_positive (term_value binary64 counts_002 [Fin 0] (Fin q) t).
Proof.
  intros Hq Ht. pose proof exp_minus_1_bounds as Hb.
  assert (Hc : t = 1%nat \/ t = 2%nat) by lia.
  destruct Hc as [-> | ->].
  - rewrite counts_002_term_1 by exact Hq. simpl. lra.
  - rewrite counts_002_term_2 by exact Hq. simpl. lra.
Qed.

Lemma counts_00_term_underflows (q : R) :
  0 <= q <= 1 ->
  term_value binary64 counts_00 [Fin 10] (Fin q) 1 = Fin 0.
Proof.
  intros Hq. unfold term_value. cbn [counts_00 endog exog nth Nat.sub].
  rewrite loop_value_prev_zero by lia.
  rewrite binary64_rate_beta_10 by lia.
  rewrite binary64_poisson_0_underflows
    by (pose proof exp_10_bounds; lra).
  rewrite binary64_binom_0_0 by exact Hq. cbn [float_add float_mul binary64].
  rewrite double_mul_0_l. apply double_add_0_0.
Qed.

Lemma counts_02_term_nan (rho : float) :
  term_value binary64 counts_02 [Fin 1000] rho 1 = NaN.
Proof.
  unfold term_value. cbn [counts_02 endog exog nth Nat.sub].
  rewrite loop_value_prev_zero by lia.
  rewrite binary64_rate_overflows by lia. reflexivity.
Qed.

Lemma log_value_positive (r : R) : 0 < r -> log_value (Fin r) = Fin (ln r).
Proof.
  intros Hr. unfold log_value, math_log.
  destruct (Rlt_dec 0 r); [reflexivity | contradiction].
Qed.

(** * The specification *)

(** ** The likelihood terms *)

(** C1, as the code has it.  On a bound series of [T >= 2] counts, with a
    [T x K] regressor matrix and a parameter vector made of [K]
    coefficients [beta] followed by [gamma]: when line 35 leaves a [rho],
    [math.exp(-gamma)] having returned, and each sum that the loop
    accumulates is finite and positive, [nloglikeobs] returns exactly [T-1]
    values, one for each [t] in [1..T-1] (none for index 0); the value for
    [t], at position [T-1-t], is minus the logarithm of the sum over
    [j = 0..min(y_t, y_{t-1})] of
    [Poisson_pmf(y_t - j; mu_t) * Binomial_pmf(j; y_{t-1}, rho)], with
    [rho = 1/(1+exp(-gamma))] and [mu_t = exp(dot(X_t, beta))], all as the
    library and the floating-point arithmetic compute them. *)
Theorem nloglikeobs_terms (lib : library) (self : Model)
  (beta : list float) (gamma rho : float) :
  (2 <= length (endog self))%nat ->
  int64_series (endog self) ->
  shape0 (exog self) = length (endog self) ->
  shape1 (exog self) = length beta ->
  rho_of_gamma lib gamma = Ok rho ->
  (forall t, (1 <= t <= length (endog self) - 1)%nat ->
             finite_positive (term_value lib self beta rho t)) ->
  exists ll,
    nloglikeobs lib self (beta ++ [gamma]) = Ok ll
    /\ length ll = (length (endog self) - 1)%nat
    /\ forall t, (1 <= t <= length (endog self) - 1)%nat ->
         exists p,
           conditional_probability lib
             (nth t (endog self) 0%Z) (nth (t - 1) (endog self) 0%Z)
             (poisson_rate lib (exog self) beta t) rho = Fin p
           /\ 0 < p
           /\ nth (length (endog self) - 1 - t) ll NaN = Fin (- ln p).
Proof.
  intros HT Hy Hrows Hcols Hrho Hpos.
  assert (Hlog : forall t, (1 <= t < length (endog self))%nat ->
            exists l, math_log (term_value lib self beta rho t) = Ok l).
  { intros t Ht. destruct (math_log_positive _ (Hpos t ltac:(lia)))
      as [r [_ [_ Hl]]]. eauto. }
  eexists. split; [|split].
  - apply (nloglikeobs_ok lib self beta gamma rho); auto.
  - rewrite length_map. apply range_down_length.
  - intros t Ht. rewrite map_range_down_nth by lia.
    replace (length (endog self) - 1 - (length (endog self) - 1 - t))%nat
      with t by lia.
    rewrite Nat2Z.id.
    destruct (math_log_positive _ (Hpos t Ht)) as [r [Hr [Hr0 Hl]]].
    exists r. split; [|split; [exact Hr0|]].
    + rewrite <- (term_value_conditional lib self beta rho t _ Hy Hl).
      exact Hr.
    + rewrite (math_log_value _ _ Hl). reflexivity.
Qed.

Lemma nloglikeobs_terms_witness :
  exists ll,
    nloglikeobs binary64 counts_002 ([Fin 0] ++ [Fin 0]) = Ok ll
    /\ length ll = 2%nat
    /\ forall t, (1 <= t <= 2)%nat ->
         exists p,
           conditional_probability binary64
             (nth t [0; 0; 2]%Z 0%Z) (nth (t - 1) [0; 0; 2]%Z 0%Z)
             (poisson_rate binary64 (intercept_only 3) [Fin 0] t)
             (Fin (1 / 2)) = Fin p
           /\ 0 < p
           /\ nth (2 - t) ll NaN = Fin (- ln p).
Proof.
  apply (nloglikeobs_terms binary64 counts_002 [Fin 0] (Fin 0)
           (Fin (1 / 2))).
  - simpl. lia.
  - apply int64_series_small. repeat constructor; lia.
  - reflexivity.
  - reflexivity.
  - exact binary64_rho_0.
  - intros t Ht. apply counts_002_terms_pos; [lra | simpl in Ht; lia].
Defined.

(** C1, counterexample.  For the series [0, 2] with an intercept column,
    [beta = 0] and [gamma = -1000], [math.exp(1000)] overflows and the call
    raises [OverflowError]: no value is returned. *)
Lemma overflow_counterexample :
  nloglikeobs binary64 counts_02 [Fin 0; Fin (- 1000)] = Raise OverflowError.
Proof.
  change [Fin 0; Fin (- 1000)] with ([Fin 0] ++ [Fin (- 1000)]).
  apply nloglikeobs_rho_raises, binary64_rho_overflows. lra.
Qed.

(** C2, as the code has it.  Whatever the library returns, when line 35
    leaves a [rho] and the sum accumulated for some [t] in [1..T-1] is zero
    or negative, [math.log] raises its domain error and [nloglikeobs] lets
    it through: the call ends in [ValueError] and returns no value, penalty
    or other. *)
Theorem nonpositive_sum_raises (lib : library) (self : Model)
  (beta : list float) (gamma rho : float) (t : nat) :
  shape0 (exog self) = length (endog self) ->
  shape1 (exog self) = length beta ->
  rho_of_gamma lib gamma = Ok rho ->
  (1 <= t <= length (endog self) - 1)%nat ->
  zero_or_negative (term_value lib self beta rho t) ->
  nloglikeobs lib self (beta ++ [gamma]) = Raise ValueError.
Proof.
  intros Hrows Hcols Hrho Ht Hbad.
  apply (nloglikeobs_raises lib self beta gamma rho); auto.
  exists t. split; [lia | now apply math_log_nonpositive].
Qed.

Lemma nonpositive_sum_raises_witness :
  nloglikeobs binary64 counts_00 ([Fin 10] ++ [Fin 0]) = Raise ValueError.
Proof.
  apply (nonpositive_sum_raises binary64 counts_00 [Fin 10] (Fin 0)
           (Fin (1 / 2)) 1).
  - reflexivity.
  - reflexivity.
  - exact binary64_rho_0.
  - simpl. lia.
  - rewrite counts_00_term_underflows by lra. simpl. lra.
Defined.

(** C2, counterexample.  For the series [0, 0] with an intercept column,
    [beta = 10] and [gamma = 0], the rate is [mu_1 = exp(10)], the mass
    [exp(-mu_1)] at [y_1 = 0] underflows to zero, the accumulated sum is 0,
    and the call raises. *)
Lemma no_penalty_counterexample :
  term_value binary64 counts_00 [Fin 10] (Fin (1 / 2)) 1 = Fin 0
  /\ nloglikeobs binary64 counts_00 [Fin 10; Fin 0] = Raise ValueError.
Proof.
  split; [apply counts_00_term_underflows; lra|].
  change [Fin 10; Fin 0] with ([Fin 10] ++ [Fin 0]).
  apply (nloglikeobs_raises binary64 counts_00 [Fin 10] (Fin 0)
           (Fin (1 / 2))).
  - reflexivity.
  - reflexivity.
  - exact binary64_rho_0.
  - exists 1%nat. split; [simpl; lia|].
    rewrite counts_00_term_underflows by lra. apply math_log_zero.
Qed.




(** C6, as the code has it.  The returned sequence is in the order of the
    loop, which runs from [t = T-1] down to [t = 1]: when line 35 leaves a
    [rho] and every accumulated sum is finite and positive a sequence is
    returned, and in whatever sequence is returned the element at position
    [i], for [i = 0..T-2], is the term for time index [t = T-1-i]. *)
Theorem nloglikeobs_reverse_order (lib : library) (self : Model)
  (beta : list float) (gamma rho : float) :
  (2 <= length (endog self))%nat ->
  int64_series (endog self) ->
  shape0 (exog self) = length (endog self) ->
  shape1 (exog self) = length beta ->
  rho_of_gamma lib gamma = Ok rho ->
  ((forall t, (1 <= t <= length (endog self) - 1)%nat ->
              finite_positive (term_value lib self beta rho t)) ->
   exists ll, nloglikeobs lib self (beta ++ [gamma]) = Ok ll)
  /\ (forall ll,
        nloglikeobs lib self (beta ++ [gamma]) = Ok ll ->
        length ll = (length (endog self) - 1)%nat
        /\ forall i, (i <= length (endog self) - 2)%nat ->
             exists l,
               math_log
                 (conditional_probability lib
                    (nth (length (endog self) - 1 - i) (endog self) 0%Z)
                    (nth (length (endog self) - 1 - i - 1) (endog self)
                       0%Z)
                    (poisson_rate lib (exog self) beta
                       (length (endog self) - 1 - i))
                    rho) = Ok l
               /\ nth i ll NaN = float_neg l).
Proof.
  intros HT Hy Hrows Hcols Hrho. split.
  - intros Hpos. eexists.
    apply (nloglikeobs_ok lib self beta gamma rho); auto.
    intros t Ht. destruct (math_log_positive _ (Hpos t ltac:(lia)))
      as [r [_ [_ Hl]]]. eauto.
  - intros ll Hll.
    destruct (nloglikeobs_returned lib self beta gamma rho ll)
      as [Hlog ->]; auto.
    split; [rewrite length_map; apply range_down_length|].
    intros i Hi. rewrite map_range_down_nth by lia.
    rewrite Nat2Z.id.
    destruct (Hlog (length (endog self) - 1 - i)%nat ltac:(lia)) as [l Hl].
    exists l. split.
    + rewrite <- (term_value_conditional lib self beta rho _ _ Hy Hl).
      exact Hl.
    + now rewrite (math_log_value _ _ Hl).
Qed.

Lemma nloglikeobs_reverse_order_witness :
  ((forall t, (1 <= t <= 2)%nat ->
              finite_positive (term_value binary64 counts_002 [Fin 0]
                          (Fin (1 / 2)) t)) ->
   exists ll, nloglikeobs binary64 counts_002 ([Fin 0] ++ [Fin 0]) = Ok ll)
  /\ (forall ll,
        nloglikeobs binary64 counts_002 ([Fin 0] ++ [Fin 0]) = Ok ll ->
        length ll = 2%nat
        /\ forall i, (i <= 1)%nat ->
             exists l,
               math_log
                 (conditional_probability binary64
                    (nth (2 - i) [0; 0; 2]%Z 0%Z)
                    (nth (2 - i - 1) [0; 0; 2]%Z 0%Z)
                    (poisson_rate binary64 (intercept_only 3) [Fin 0]
                       (2 - i))
                    (Fin (1 / 2))) = Ok l
               /\ nth i ll NaN = float_neg l).
Proof.
  apply (nloglikeobs_reverse_order binary64 counts_002 [Fin 0] (Fin 0)
           (Fin (1 / 2))).
  - simpl. lia.
  - apply int64_series_small. repeat constructor; lia.
  - reflexivity.
  - reflexivity.
  - exact binary64_rho_0.
Defined.

(** The result for the series [0, 0, 2] with an intercept column and all
    parameters 0, under the double-precision library. *)
Lemma counts_002_result :
  nloglikeobs binary64 counts_002 ([Fin 0] ++ [Fin 0])
  = Ok [Fin (1 + ln 2); Fin 1].
Proof.
  pose proof exp_minus_1_bounds as Hb.
  rewrite (nloglikeobs_ok binary64 counts_002 [Fin 0] (Fin 0)
             (Fin (1 / 2)));
    [| reflexivity | reflexivity | exact binary64_rho_0 |].
  - f_equal. change (length (endog counts_002) - 1)%nat with 2%nat.
    change (range_down (Z.of_nat 2) 0) with [2%Z; 1%Z].
    cbn [map]. change (Z.to_nat 2) with 2%nat.
    change (Z.to_nat 1) with 1%nat.
    rewrite counts_002_term_1, counts_002_term_2 by lra.
    rewrite !log_value_positive by lra. cbn [float_neg]. unfold Rdiv.
    rewrite ln_mult by (try apply exp_pos; lra).
    rewrite ln_exp, ln_Rinv by lra.
    f_equal; [f_equal; lra|]. f_equal. f_equal. lra.
  - intros t Ht.
    destruct (math_log_positive _
                (counts_002_terms_pos (1 / 2) t ltac:(lra)
                   ltac:(simpl in Ht; lia))) as [r [_ [_ Hl]]].
    eauto.
Qed.

(** C6, counterexample.  For the series [0, 0, 2] with an intercept column
    and all parameters 0, the term for [t = 1] is 1 and the term for [t = 2]
    is [1 + ln 2]; position 0 of the result holds the latter. *)
Lemma forward_order_counterexample :
  nloglikeobs binary64 counts_002 [Fin 0; Fin 0]
  = Ok [Fin (1 + ln 2); Fin 1]
  /\ float_neg
       (log_value
          (conditional_probability binary64 0 0
             (poisson_rate binary64 (intercept_only 3) [Fin 0] 1)
             (Fin (1 / 2)))) = Fin 1
  /\ 1 < 1 + ln 2.
Proof.
  split; [exact counts_002_result|]. split.
  - rewrite binary64_rate_beta_0 by lia.
    rewrite conditional_prev_zero by lia.
    rewrite binary64_poisson_0_rate_1.
    pose proof exp_minus_1_bounds as Hb. pose proof underflow_bound_small.
    rewrite binary64_single_term by lra.
    rewrite log_value_positive by lra. cbn [float_neg].
    rewrite ln_exp. f_equal. lra.
  - pose proof ln_2_pos. lra.
Qed.

(** ** Construction *)

(** C4.  Constructing a [PoissonINAR] raises a type error for every observed
    series and regressor matrix: [__init__] calls [super(INAR, self)] on an
    instance whose class does not derive from [INAR]. *)
Theorem construct_PoissonINAR_raises (Endog Exog Instance : Type)
  (base_init : Endog -> Exog -> result Instance)
  (endog_ : Endog) (exog_ : Exog) :
  isinstance PoissonINAR INAR = false
  /\ construct base_init PoissonINAR endog_ exog_ = Raise TypeError.
Proof. split; reflexivity. Qed.




(** ** Fitting *)

Section FitFacts.

Variable FitResult : Type.
Variable super_fit :
  Model -> option pysequence -> Z -> Z -> Model * result FitResult.

(** The inherited [fit] leaves the list of names as it finds it. *)
Hypothesis super_fit_names :
  forall m sp mi mf, exog_names (fst (super_fit m sp mi mf)) = exog_names m.

Lemma fit_names (self : Model) (sp : option pysequence) (mi mf : Z) :
  exog_names (fst (fit super_fit self sp mi mf))
  = exog_names self ++ ["gamma"%string].
Proof.
  unfold fit.
  destruct (start_params_after_guard _ sp) as [start|e]; simpl.
  - now rewrite super_fit_names.
  - reflexivity.
Qed.

Lemma fit_calls_names (self : Model)
  (calls : list (option pysequence * Z * Z)) :
  exog_names (fit_calls super_fit self calls)
  = exog_names self ++ repeat "gamma"%string (length calls).
Proof.
  revert self. induction calls as [|[[sp mi] mf] rest IH]; intros self.
  - simpl. now rewrite app_nil_r.
  - simpl fit_calls. rewrite IH, fit_names, <- app_assoc. reflexivity.
Qed.

End FitFacts.

(** C3, as the code has it.  Every call of [fit] appends the label: when the
    inherited [fit] does not touch the names, an instance whose list has [K]
    names has [K + n] after [n] calls, the last [n] of them ['gamma']. *)
Theorem fit_appends_on_every_call (FitResult : Type)
  (super_fit :
     Model -> option pysequence -> Z -> Z -> Model * result FitResult)
  (self : Model) (calls : list (option pysequence * Z * Z)) :
  (forall m sp mi mf, exog_names (fst (super_fit m sp mi mf)) = exog_names m) ->
  exog_names (fit_calls super_fit self calls)
  = exog_names self ++ repeat "gamma"%string (length calls)
  /\ length (exog_names (fit_calls super_fit self calls))
     = (length (exog_names self) + length calls)%nat.
Proof.
  intros Hnames. rewrite fit_calls_names by exact Hnames.
  split; [reflexivity|]. now rewrite length_app, repeat_length.
Qed.

Lemma fit_appends_on_every_call_witness :
  exog_names
    (fit_calls immediate_fit counts_002
       [(None, default_maxiter, default_maxfun);
        (None, default_maxiter, default_maxfun)])
  = ["Intercept"; "gamma"; "gamma"]%string
  /\ length
       (exog_names
          (fit_calls immediate_fit counts_002
             [(None, default_maxiter, default_maxfun);
              (None, default_maxiter, default_maxfun)]))
     = 3%nat.
Proof.
  apply (fit_appends_on_every_call (list float) immediate_fit counts_002
           [(None, default_maxiter, default_maxfun);
            (None, default_maxiter, default_maxfun)]).
  intros m sp mi mf. reflexivity.
Defined.

(** C3, counterexample.  An instance with [K = 1] regressor column and one
    name, fitted twice with the default start, ends with three names. *)
Lemma fit_twice_counterexample :
  shape1 (exog counts_002) = 1%nat
  /\ length (exog_names counts_002) = 1%nat
  /\ exog_names
       (fit_calls immediate_fit counts_002
          [(None, default_maxiter, default_maxfun);
           (None, default_maxiter, default_maxfun)])
     = ["Intercept"; "gamma"; "gamma"]%string.
Proof. repeat split. Qed.

(** C8.  With [start_params] unset, the vector that [fit] passes to the
    inherited [fit] has [K + 1] entries, all equal to 1.0: [K] for the
    regression coefficients and the last for the thinning logit. *)
Theorem fit_default_start (FitResult : Type)
  (super_fit :
     Model -> option pysequence -> Z -> Z -> Model * result FitResult)
  (self : Model) (maxiter maxfun : Z) :
  exists start,
    fit super_fit self None maxiter maxfun
    = super_fit (append_exog_name self "gamma") (Some (NdArray start))
        maxiter maxfun
    /\ length start = (shape1 (exog self) + 1)%nat
    /\ firstn (shape1 (exog self)) start
       = repeat (Fin 1) (shape1 (exog self))
    /\ nth (shape1 (exog self)) start (Fin 0) = Fin 1
    /\ Forall (fun v => v = Fin 1) start.
Proof.
  exists (np_append (np_ones (shape1 (exog self))) (Fin 1)).
  unfold np_append, np_ones. repeat split.
  - rewrite length_app, repeat_length. reflexivity.
  - rewrite firstn_app, repeat_length, Nat.sub_diag. simpl.
    rewrite app_nil_r. apply firstn_all2. now rewrite repeat_length.
  - rewrite app_nth2 by (rewrite repeat_length; lia).
    now rewrite repeat_length, Nat.sub_diag.
  - apply Forall_app. split.
    + apply Forall_forall. intros v Hv. now apply repeat_spec in Hv.
    + now constructor.
Qed.

Lemma eq_None_array (a : list float) :
  eq_None (Some (NdArray a)) = PyBoolArray (repeat false (length a)).
Proof.
  unfold eq_None. f_equal.
  induction a as [|x a IH]; simpl; [reflexivity | now rewrite IH].
Qed.

(** C10, as the code has it.  When [start_params] is a NumPy array of two
    or more entries, the guard [start_params == None] is an array of as many
    bools, its truth value is ambiguous, and [fit] raises before it reaches
    the inherited [fit].  When it is a Python list or tuple, of any length,
    the comparison is plain [False]: the guard is skipped and the sequence
    reaches the inherited [fit] as it is. *)
Theorem fit_explicit_start (FitResult : Type)
  (super_fit :
     Model -> option pysequence -> Z -> Z -> Model * result FitResult)
  (self : Model) (a : list float) (maxiter maxfun : Z) :
  (2 <= length a)%nat ->
  (eq_None (Some (NdArray a)) = PyBoolArray (repeat false (length a))
   /\ truth (eq_None (Some (NdArray a))) = Raise ValueError
   /\ fit super_fit self (Some (NdArray a)) maxiter maxfun
      = (append_exog_name self "gamma", Raise ValueError))
  /\ fit super_fit self (Some (PyList a)) maxiter maxfun
     = super_fit (append_exog_name self "gamma") (Some (PyList a))
         maxiter maxfun.
Proof.
  intros Ha. split; [|reflexivity].
  split; [apply eq_None_array|].
  destruct a as [|x [|z rest]]; simpl in Ha; try lia.
  split; reflexivity.
Qed.

Lemma fit_explicit_start_witness :
  (eq_None (Some (NdArray [Fin 1; Fin 1])) = PyBoolArray [false; false]
   /\ truth (eq_None (Some (NdArray [Fin 1; Fin 1]))) = Raise ValueError
   /\ fit immediate_fit counts_002 (Some (NdArray [Fin 1; Fin 1]))
        default_maxiter default_maxfun
      = (append_exog_name counts_002 "gamma", Raise ValueError))
  /\ fit immediate_fit counts_002 (Some (PyList [Fin 1; Fin 1]))
       default_maxiter default_maxfun
     = immediate_fit (append_exog_name counts_002 "gamma")
         (Some (PyList [Fin 1; Fin 1])) default_maxiter default_maxfun.
Proof.
  apply (fit_explicit_start (list float) immediate_fit counts_002
           [Fin 1; Fin 1] default_maxiter default_maxfun).
  simpl. lia.
Defined.

(** C10, counterexample.  An explicit start of two entries given as a
    Python list passes the guard, and [fit] returns what the inherited [fit]
    returns. *)
Lemma list_start_counterexample :
  fit immediate_fit counts_002 (Some (PyList [Fin 1; Fin 1]))
    default_maxiter default_maxfun
  = (append_exog_name counts_002 "gamma", Ok [Fin 1; Fin 1]).
Proof. reflexivity. Qed.

(** ** The logistic map *)








(** * Further properties of the code *)

(** ** [nloglikeobs]: malformed arguments and edge cases *)

(** X1.  An empty parameter vector has no last entry: [nloglikeobs] raises
    [IndexError] at [params[-1]], whatever the bound data. *)
Theorem nloglikeobs_empty_params (lib : library) (self : Model) :
  nloglikeobs lib self [] = Raise IndexError.
Proof. unfold nloglikeobs. now rewrite getitem_empty. Qed.

(** X2.  When line 35 leaves a [rho] and the number of coefficients before
    [gamma] is not the number of regressor columns, [X.dot(beta)] raises
    [ValueError] and so does [nloglikeobs], before any observation is
    read. *)
Theorem nloglikeobs_wrong_parameter_count (lib : library) (self : Model)
  (beta : list float) (gamma rho : float) :
  rho_of_gamma lib gamma = Ok rho ->
  shape1 (exog self) <> length beta ->
  nloglikeobs lib self (beta ++ [gamma]) = Raise ValueError.
Proof.
  intros He Hne. unfold nloglikeobs.
  rewrite getitem_last, slice_but_last_app. cbn [bind].
  rewrite He. cbn [bind].
  unfold ndarray_dot. apply Nat.eqb_neq in Hne. now rewrite Hne.
Qed.

Lemma nloglikeobs_wrong_parameter_count_witness :
  nloglikeobs binary64 counts_002 ([Fin 0; Fin 0] ++ [Fin 0])
  = Raise ValueError.
Proof.
  apply (nloglikeobs_wrong_parameter_count binary64 counts_002
           [Fin 0; Fin 0] (Fin 0) (Fin (1 / 2))).
  - exact binary64_rho_0.
  - simpl. lia.
Defined.

(** X3.  A series of fewer than two observations has no pair to condition
    on: when line 35 leaves a [rho] and the parameter vector has the right
    length, [nloglikeobs] returns the empty sequence, without calling a mass
    function or [math.log]. *)
Theorem nloglikeobs_short_series (lib : library) (self : Model)
  (beta : list float) (gamma rho : float) :
  rho_of_gamma lib gamma = Ok rho ->
  (length (endog self) <= 1)%nat ->
  shape1 (exog self) = length beta ->
  nloglikeobs lib self (beta ++ [gamma]) = Ok [].
Proof.
  intros He HT Hcols.
  rewrite (nloglikeobs_unfold lib self beta gamma rho) by assumption.
  replace (length (endog self) - 1)%nat with 0%nat by lia. reflexivity.
Qed.

Lemma nloglikeobs_short_series_witness :
  nloglikeobs binary64
    (mk_Model [3%Z] (intercept_only 1) ["Intercept"%string])
    ([Fin 0] ++ [Fin 0])
  = Ok [].
Proof.
  apply (nloglikeobs_short_series binary64
           (mk_Model [3%Z] (intercept_only 1) ["Intercept"%string])
           [Fin 0] (Fin 0) (Fin (1 / 2))).
  - exact binary64_rho_0.
  - simpl. lia.
  - reflexivity.
Defined.

Lemma negative_count_raises (lib : library) (self : Model)
  (beta : list float) (gamma rho : float) (i : nat) :
  (2 <= length (endog self))%nat ->
  int64_series (endog self) ->
  shape0 (exog self) = length (endog self) ->
  shape1 (exog self) = length beta ->
  rho_of_gamma lib gamma = Ok rho ->
  (i < length (endog self))%nat ->
  (nth i (endog self) 0 < 0)%Z ->
  nloglikeobs lib self (beta ++ [gamma]) = Raise ValueError.
Proof.
  intros HT Hy Hrows Hcols He Hi Hneg.
  apply (nloglikeobs_raises lib self beta gamma rho); auto.
  assert (Hempty : forall t,
             (Z.min (nth t (endog self) 0) (nth (t - 1) (endog self) 0) < 0)%Z
             -> math_log (term_value lib self beta rho t)
                = Raise ValueError).
  { intros t Hm. unfold term_value.
    rewrite loop_value_empty; [apply math_log_zero|].
    apply inner_range_negative; [|exact Hm].
    apply is_int64_min; now apply int64_series_nth. }
  destruct i as [|i].
  - exists 1%nat. split; [lia|]. apply Hempty. simpl Nat.sub. lia.
  - exists (S i). split; [lia|]. apply Hempty. lia.
Qed.

(** X5.  When line 35 leaves a [rho], a negative count anywhere in a series
    of two or more observations makes [nloglikeobs] raise [ValueError],
    whatever the library returns: the pass that reads it has an empty range
    of [j], leaves [prob_y_t] at 0, and [math.log(0)] is a domain error. *)
Theorem nloglikeobs_negative_count (lib : library) (self : Model)
  (beta : list float) (gamma rho : float) (i : nat) :
  (2 <= length (endog self))%nat ->
  int64_series (endog self) ->
  shape0 (exog self) = length (endog self) ->
  shape1 (exog self) = length beta ->
  rho_of_gamma lib gamma = Ok rho ->
  (i < length (endog self))%nat ->
  (nth i (endog self) 0 < 0)%Z ->
  nloglikeobs lib self (beta ++ [gamma]) = Raise ValueError.
Proof.
  intros HT Hy Hrows Hcols He Hi Hneg.
  now apply (negative_count_raises lib self beta gamma rho i).
Qed.

Lemma nloglikeobs_negative_count_witness :
  nloglikeobs binary64
    (mk_Model [-3; 1; 4]%Z (intercept_only 3) ["Intercept"%string])
    ([Fin 0] ++ [Fin 0])
  = Raise ValueError.
Proof.
  apply (nloglikeobs_negative_count binary64
           (mk_Model [-3; 1; 4]%Z (intercept_only 3) ["Intercept"%string])
           [Fin 0] (Fin 0) (Fin (1 / 2)) 0).
  - simpl. lia.
  - apply int64_series_small. repeat constructor; lia.
  - reflexivity.
  - reflexivity.
  - exact binary64_rho_0.
  - simpl. lia.
  - simpl. lia.
Defined.

(** X6.  On data of matching shapes [nloglikeobs] has three outcomes, for
    any library: it returns a sequence of [T-1] values, it raises the
    [ValueError] of [math.log], or it raises what line 35 raises, the
    [OverflowError] of [math.exp(-gamma)] or a division by zero. *)
Theorem nloglikeobs_outcomes (lib : library) (self : Model)
  (beta : list float) (gamma : float) :
  shape0 (exog self) = length (endog self) ->
  shape1 (exog self) = length beta ->
  (exists ll, nloglikeobs lib self (beta ++ [gamma]) = Ok ll
              /\ length ll = (length (endog self) - 1)%nat)
  \/ nloglikeobs lib self (beta ++ [gamma]) = Raise ValueError
  \/ (exists ex, rho_of_gamma lib gamma = Raise ex
                 /\ nloglikeobs lib self (beta ++ [gamma]) = Raise ex).
Proof.
  intros Hrows Hcols.
  destruct (rho_of_gamma lib gamma) as [rho|ex] eqn:He.
  - rewrite (nloglikeobs_unfold lib self beta gamma rho) by assumption.
    match goal with
    | |- context [for_loop ?items (fun ll x => v <- @?f x ;; _) ?acc] =>
        destruct (for_loop_outcomes f ValueError items acc)
          as [[vs [Hvs Hlen]]|Hraise]
    end.
    + intros t Hin. rewrite loop_pass by assumption. apply math_log_cases.
    + left. rewrite Hvs. simpl. eexists. split; [reflexivity|].
      unfold np_neg. now rewrite length_map, Hlen, range_down_length.
    + right. left. now rewrite Hraise.
  - right. right. exists ex. split; [reflexivity|].
    now apply nloglikeobs_rho_raises.
Qed.

Lemma nloglikeobs_outcomes_witness :
  (exists ll,
      nloglikeobs binary64 counts_002 ([Fin 0] ++ [Fin (- 1000)]) = Ok ll
      /\ length ll = 2%nat)
  \/ nloglikeobs binary64 counts_002 ([Fin 0] ++ [Fin (- 1000)])
     = Raise ValueError
  \/ (exists ex,
        rho_of_gamma binary64 (Fin (- 1000)) = Raise ex
        /\ nloglikeobs binary64 counts_002 ([Fin 0] ++ [Fin (- 1000)])
           = Raise ex).
Proof.
  apply (nloglikeobs_outcomes binary64 counts_002 [Fin 0] (Fin (- 1000)));
    reflexivity.
Defined.

(** X7.  The regressors of the first observation are never used: replacing
    row 0 of the regressor matrix changes neither the value [nloglikeobs]
    returns nor the exception it raises, for any parameter vector. *)
Theorem nloglikeobs_ignores_first_row (lib : library) (self : Model)
  (r : list float) (params : list float) :
  (1 <= shape0 (exog self))%nat ->
  nloglikeobs lib (with_first_row self r) params
  = nloglikeobs lib self params.
Proof.
  intros Hrows. unfold nloglikeobs, with_first_row, shape0 in *.
  destruct (getitem params (-1)) as [gamma|e]; [|reflexivity].
  cbn [bind endog exog].
  destruct (rho_of_gamma lib gamma) as [rho|e]; [|reflexivity].
  cbn [bind]. unfold ndarray_dot, shape1. cbn [ncols rows].
  destruct (Nat.eqb _ _); [|reflexivity]. cbn [bind].
  destruct (rows (exog self)) as [|r0 rest]; [simpl in Hrows; lia|].
  cbn [tl map np_exp_array]. f_equal. apply for_loop_ext_in.
  intros ll t Hin. apply range_down_positive in Hin.
  unfold prob_y_t.
  rewrite (getitem_skips_head
             (np_exp lib (np_dot lib r (slice_but_last params)))
             (np_exp lib (np_dot lib r0 (slice_but_last params))) _ t Hin).
  reflexivity.
Qed.

Lemma nloglikeobs_ignores_first_row_witness :
  nloglikeobs binary64 (with_first_row counts_002 [Fin 5]) [Fin 0; Fin 0]
  = nloglikeobs binary64 counts_002 [Fin 0; Fin 0].
Proof.
  apply (nloglikeobs_ignores_first_row binary64 counts_002 [Fin 5]
           [Fin 0; Fin 0]).
  unfold shape0. simpl. lia.
Defined.

(** X18.  A sum that is not a number raises nothing: when line 35 leaves a
    [rho] and [math.log] raises on no accumulated sum, [nloglikeobs] returns
    its [T-1] values, and the value for a [t] whose sum is not-a-number is
    not-a-number. *)
Theorem nloglikeobs_nan_sum (lib : library) (self : Model)
  (beta : list float) (gamma rho : float) (t : nat) :
  shape0 (exog self) = length (endog self) ->
  shape1 (exog self) = length beta ->
  rho_of_gamma lib gamma = Ok rho ->
  (forall u, (1 <= u <= length (endog self) - 1)%nat ->
             exists l, math_log (term_value lib self beta rho u) = Ok l) ->
  (1 <= t <= length (endog self) - 1)%nat ->
  term_value lib self beta rho t = NaN ->
  exists ll,
    nloglikeobs lib self (beta ++ [gamma]) = Ok ll
    /\ length ll = (length (endog self) - 1)%nat
    /\ nth (length (endog self) - 1 - t) ll (Fin 0) = NaN.
Proof.
  intros Hrows Hcols Hrho Hlog Ht Hnan. eexists. split; [|split].
  - apply (nloglikeobs_ok lib self beta gamma rho); auto.
    intros u Hu. apply Hlog. lia.
  - rewrite length_map. apply range_down_length.
  - rewrite map_range_down_nth by lia.
    replace (length (endog self) - 1 - (length (endog self) - 1 - t))%nat
      with t by lia.
    now rewrite Nat2Z.id, Hnan.
Qed.

Lemma nloglikeobs_nan_sum_witness :
  exists ll,
    nloglikeobs binary64 counts_02 ([Fin 1000] ++ [Fin 0]) = Ok ll
    /\ length ll = 1%nat
    /\ nth 0 ll (Fin 0) = NaN.
Proof.
  apply (nloglikeobs_nan_sum binary64 counts_02 [Fin 1000] (Fin 0)
           (Fin (1 / 2)) 1).
  - reflexivity.
  - reflexivity.
  - exact binary64_rho_0.
  - intros u Hu. simpl in Hu. replace u with 1%nat by lia.
    rewrite counts_02_term_nan. exists NaN. reflexivity.
  - simpl. lia.
  - apply counts_02_term_nan.
Defined.

(** ** One more observation *)

Lemma for_loop_acc {A B} (f : A -> result B) (items : list A)
  (acc : list B) :
  for_loop items (fun ll x => v <- f x ;; Ok (ll ++ [v])) acc
  = (vs <- for_loop items (fun ll x => v <- f x ;; Ok (ll ++ [v])) [] ;;
     Ok (acc ++ vs)).
Proof.
  revert acc. induction items as [|x rest IH]; intros acc.
  - simpl. now rewrite app_nil_r.
  - simpl. destruct (f x) as [v|e]; [|reflexivity]. cbn [bind].
    rewrite (IH (acc ++ [v])), (IH [v]).
    destruct (for_loop rest _ []) as [vs|e]; [|reflexivity].
    cbn [bind]. now rewrite <- app_assoc.
Qed.

(** The method as a loop over the accumulated sums. *)
Lemma nloglikeobs_as_terms (lib : library) (self : Model)
  (beta : list float) (gamma rho : float) :
  shape0 (exog self) = length (endog self) ->
  shape1 (exog self) = length beta ->
  rho_of_gamma lib gamma = Ok rho ->
  nloglikeobs lib self (beta ++ [gamma])
  = (ll <- for_loop
             (range_down (Z.of_nat (length (endog self) - 1)) 0)
             (fun ll t =>
                l <- math_log (term_value lib self beta rho (Z.to_nat t)) ;;
                Ok (ll ++ [l]))
             [] ;;
     Ok (np_neg ll)).
Proof.
  intros Hrows Hcols He.
  rewrite (nloglikeobs_unfold lib self beta gamma rho) by assumption.
  f_equal. apply for_loop_ext_in. intros ll t Hin.
  now rewrite loop_pass by assumption.
Qed.

Lemma observe_new_term (lib : library) (self : Model) (beta : list float)
  (rho : float) (v : Z) (r : list float) :
  (1 <= length (endog self))%nat ->
  shape0 (exog self) = length (endog self) ->
  term_value lib (observe self v r) beta rho (length (endog self))
  = loop_value lib v (nth (length (endog self) - 1) (endog self) 0%Z)
      (np_exp lib (np_dot lib r beta)) rho.
Proof.
  intros HT Hrows. unfold term_value, poisson_rate, observe, shape0 in *.
  cbn [endog exog rows].
  rewrite app_nth2 by lia. rewrite Nat.sub_diag.
  rewrite app_nth1 by lia.
  rewrite <- Hrows at 2. rewrite app_nth2 by lia.
  now rewrite Nat.sub_diag.
Qed.

Lemma observe_old_term (lib : library) (self : Model) (beta : list float)
  (rho : float) (v : Z) (r : list float) (t : nat) :
  (1 <= t < length (endog self))%nat ->
  shape0 (exog self) = length (endog self) ->
  term_value lib (observe self v r) beta rho t
  = term_value lib self beta rho t.
Proof.
  intros Ht Hrows. unfold term_value, poisson_rate, observe, shape0 in *.
  cbn [endog exog rows]. now rewrite !app_nth1 by lia.
Qed.

(** X10.  Observing one more count prepends one value, for any library:
    when line 35 leaves a [rho], the call on the series extended by [v]
    with regressor row [r] first takes the logarithm of the sum for the new
    pair [(y_{T-1}, v)], then does what the call on the series before the
    extension does, and returns the new term followed by the earlier
    result. *)
Theorem nloglikeobs_observe (lib : library) (self : Model)
  (beta : list float) (gamma rho : float) (v : Z) (r : list float) :
  (1 <= length (endog self))%nat ->
  shape0 (exog self) = length (endog self) ->
  shape1 (exog self) = length beta ->
  rho_of_gamma lib gamma = Ok rho ->
  nloglikeobs lib (observe self v r) (beta ++ [gamma])
  = (l <- math_log
            (loop_value lib v
               (nth (length (endog self) - 1) (endog self) 0%Z)
               (np_exp lib (np_dot lib r beta)) rho) ;;
     ll <- nloglikeobs lib self (beta ++ [gamma]) ;;
     Ok (float_neg l :: ll)).
Proof.
  intros HT Hrows Hcols He.
  rewrite (nloglikeobs_as_terms lib self beta gamma rho) by assumption.
  rewrite (nloglikeobs_as_terms lib (observe self v r) beta gamma rho);
    [| unfold observe, shape0 in *; cbn [endog exog rows];
       rewrite !length_app; simpl; lia
     | exact Hcols | exact He].
  replace (length (endog (observe self v r)) - 1)%nat
    with (S (length (endog self) - 1))
    by (unfold observe; cbn [endog]; rewrite length_app; simpl; lia).
  rewrite range_down_first. cbn [for_loop]. rewrite Nat2Z.id.
  replace (S (length (endog self) - 1)) with (length (endog self)) by lia.
  rewrite observe_new_term by assumption.
  destruct (math_log _) as [l|ex]; [|reflexivity]. cbn [bind].
  rewrite for_loop_acc.
  rewrite (for_loop_ext_in _
             (fun ll t =>
                l0 <- math_log (term_value lib self beta rho
                                  (Z.to_nat t)) ;;
                Ok (ll ++ [l0]))).
  - destruct (for_loop _ _ []) as [vs|ex]; reflexivity.
  - intros ll t Hin. apply range_down_In in Hin.
    now rewrite observe_old_term by (auto; lia).
Qed.

Lemma nloglikeobs_observe_witness :
  nloglikeobs binary64 (observe counts_002 1 [Fin 1]) ([Fin 0] ++ [Fin 0])
  = (l <- math_log
            (loop_value binary64 1 2
               (np_exp binary64 (np_dot binary64 [Fin 1] [Fin 0]))
               (Fin (1 / 2))) ;;
     ll <- nloglikeobs binary64 counts_002 ([Fin 0] ++ [Fin 0]) ;;
     Ok (float_neg l :: ll)).
Proof.
  apply (nloglikeobs_observe binary64 counts_002 [Fin 0] (Fin 0)
           (Fin (1 / 2)) 1%Z [Fin 1]).
  - simpl. lia.
  - reflexivity.
  - reflexivity.
  - exact binary64_rho_0.
Defined.

(** ** [fit]: the starting vector and the names *)

(** X13.  An explicit starting array of one entry passes the guard: [fit]
    hands it to the inherited [fit] unchanged, with the caps it was given,
    and does not substitute the default start. *)
Theorem fit_one_entry_start (FitResult : Type)
  (super_fit :
     Model -> option pysequence -> Z -> Z -> Model * result FitResult)
  (self : Model) (x : float) (maxiter maxfun : Z) :
  fit super_fit self (Some (NdArray [x])) maxiter maxfun
  = super_fit (append_exog_name self "gamma") (Some (NdArray [x]))
      maxiter maxfun.
Proof. reflexivity. Qed.

(** X14.  On the first call of [fit] with the default start, on an instance
    that has one name per regressor column, the name list and the starting
    vector end with the same length [K + 1], and the name in the position of
    the thinning logit is ['gamma']. *)
Theorem fit_first_call_names (FitResult : Type)
  (super_fit :
     Model -> option pysequence -> Z -> Z -> Model * result FitResult)
  (self : Model) (maxiter maxfun : Z) :
  (forall m sp mi mf, exog_names (fst (super_fit m sp mi mf)) = exog_names m) ->
  length (exog_names self) = shape1 (exog self) ->
  exists start,
    start_params_after_guard (append_exog_name self "gamma") None
    = Ok (Some (NdArray start))
    /\ length (exog_names (fst (fit super_fit self None maxiter maxfun)))
       = length start
    /\ nth (shape1 (exog self))
         (exog_names (fst (fit super_fit self None maxiter maxfun)))
         ""%string
       = "gamma"%string.
Proof.
  intros Hframe Hnames. eexists. split; [reflexivity|].
  rewrite (fit_names _ super_fit Hframe).
  unfold np_append, np_ones. cbn [append_exog_name exog].
  rewrite !length_app, repeat_length, Hnames. split; [reflexivity|].
  rewrite app_nth2 by lia. now rewrite Hnames, Nat.sub_diag.
Qed.

Lemma fit_first_call_names_witness :
  exists start,
    start_params_after_guard (append_exog_name counts_002 "gamma") None
    = Ok (Some (NdArray start))
    /\ length
         (exog_names
            (fst (fit immediate_fit counts_002 None default_maxiter
                    default_maxfun)))
       = length start
    /\ nth 1
         (exog_names
            (fst (fit immediate_fit counts_002 None default_maxiter
                    default_maxfun)))
         ""%string
       = "gamma"%string.
Proof.
  apply (fit_first_call_names (list float) immediate_fit counts_002
           default_maxiter default_maxfun).
  - intros m sp mi mf. reflexivity.
  - reflexivity.
Defined.

(** ** The constructor of [INAR] *)

(** X16.  [INAR.__init__] names its own class in [super]: constructing an
    [INAR] gives exactly what the library initialiser gives for the same
    data, while the same initialiser run on an instance of a class outside
    [INAR]'s descendants raises [TypeError]. *)
Theorem construct_INAR_delegates (Endog Exog Instance : Type)
  (base_init : Endog -> Exog -> result Instance)
  (self_type : pyclass) (endog_ : Endog) (exog_ : Exog) :
  construct base_init INAR endog_ exog_ = base_init endog_ exog_
  /\ INAR___init__ base_init self_type endog_ exog_
     = if isinstance self_type INAR
       then base_init endog_ exog_
       else Raise TypeError.
Proof. split; [reflexivity | destruct self_type; reflexivity]. Qed.
